(** * Hotel management: the domain model of [app.py]

    A shallow embedding of the class [HotelManagement] (rooms, customers,
    bookings, the six mutating operations, and the CSV persistence), and
    the properties of its specification.

    Modelling conventions.
    - A Python [str] is a [string]; each [ascii] stands for the code point
      of the same number, so the strings covered are those over
      U+0000..U+00FF.
    - A caller-supplied argument is a [value]: [None] for Python's [None],
      [Some s] for a string.
    - A Python [dict] is an association list in insertion order, every key
      at most once.
    - A [float] is an IEEE 754 binary64 number ([PrimFloat]).
    - [save_data] only writes, and no operation reads the files back, so
      the store evolves independently of the disk; file-system errors are
      outside the model. *)

From Stdlib Require Import String Ascii List ZArith Lia Bool PrimFloat.
From Stdlib Require Import DecimalString.
Import ListNotations.
Open Scope string_scope.

(** ** Python builtins *)

Module Py.

Definition value : Type := option string.

(** Truth value of an argument: [None] and [''] are falsy. *)
Definition truthy (v : value) : bool :=
  match v with
  | Some s => negb (s =? "")
  | None => false
  end.

(** [str.isspace] on one character, on U+0000..U+00FF: TAB..CR,
    FS..US, space, NEL and NBSP. *)
Definition is_space (c : ascii) : bool :=
  let n := nat_of_ascii c in
  ((9 <=? n) && (n <=? 13) || (28 <=? n) && (n <=? 32)
   || (n =? 133) || (n =? 160))%nat.

Fixpoint lstrip (s : string) : string :=
  match s with
  | String c s' => if is_space c then lstrip s' else s
  | EmptyString => EmptyString
  end.

Fixpoint rstrip (s : string) : string :=
  match s with
  | String c s' =>
      match rstrip s' with
      | EmptyString => if is_space c then EmptyString else String c EmptyString
      | r => String c r
      end
  | EmptyString => EmptyString
  end.

(** [s.strip()] *)
Definition strip (s : string) : string := rstrip (lstrip s).

Definition is_digit (c : ascii) : bool :=
  let n := nat_of_ascii c in ((48 <=? n) && (n <=? 57))%nat.

Definition digit_value (c : ascii) : Z := Z.of_nat (nat_of_ascii c) - 48.

(** [sys.int_info.default_max_str_digits]: the longest digit string
    that [int] converts. *)
Definition max_str_digits : nat := 4300.

(** The digits of an integer literal: decimal digits, with single
    underscores allowed between two digits. [count] is the number of
    digits read so far, [prev] tells whether the previous character was
    a digit. *)
Fixpoint int_digits (s : string) (acc : Z) (count : nat) (prev : bool)
  : option Z :=
  match s with
  | EmptyString =>
      if prev && (count <=? max_str_digits)%nat then Some acc else None
  | String c s' =>
      if is_digit c
      then int_digits s' (10 * acc + digit_value c) (S count) true
      else if (c =? "_")%char then
        if prev then int_digits s' acc count false else None
      else None
  end.

(** [int(s)] in base 10 for a string without surrounding whitespace (the
    only strings [app.py] passes to it); [None] stands for [ValueError]. *)
Definition int (s : string) : option Z :=
  match s with
  | String "+" s' => int_digits s' 0 0 false
  | String "-" s' => option_map Z.opp (int_digits s' 0 0 false)
  | _ => int_digits s 0 0 false
  end.

(** [str(n)] for a natural number. *)
Definition str_nat (n : nat) : string :=
  NilEmpty.string_of_uint (Nat.to_uint n).

(** [str(b)] for a boolean. *)
Definition str_bool (b : bool) : string := if b then "True" else "False".

(** [c.lower()] on U+0000..U+00FF: A..Z and the Latin-1 capitals
    U+00C0..U+00DE (but the multiplication sign U+00D7). *)
Definition lower_char (c : ascii) : ascii :=
  let n := nat_of_ascii c in
  if ((65 <=? n) && (n <=? 90)
      || (192 <=? n) && (n <=? 222) && negb (n =? 215))%nat
  then ascii_of_nat (n + 32) else c.

Fixpoint lower (s : string) : string :=
  match s with
  | String c s' => String (lower_char c) (lower s')
  | EmptyString => EmptyString
  end.

(** The exceptions the operations can meet: [int] on a string that is
    not an integer literal. The text of [str(e)] is left symbolic. *)
Inductive exn : Type :=
| ValueError_int (literal : string).

(** ** Dictionaries: association lists in insertion order *)

Section Dict.
Context {V : Type}.

Definition dict : Type := list (string * V).

(** [d.get(k)] *)
Fixpoint get (k : string) (d : dict) : option V :=
  match d with
  | [] => None
  | (k', v) :: d' => if k' =? k then Some v else get k d'
  end.

(** [k in d] *)
Definition mem (k : string) (d : dict) : bool :=
  match get k d with Some _ => true | None => false end.

(** [d[k] = v]: the value is replaced in place when the key is there,
    the entry is appended otherwise. *)
Fixpoint set (k : string) (v : V) (d : dict) : dict :=
  match d with
  | [] => [(k, v)]
  | (k', v') :: d' =>
      if k' =? k then (k', v) :: d' else (k', v') :: set k v d'
  end.

(** [del d[k]] *)
Fixpoint del (k : string) (d : dict) : dict :=
  match d with
  | [] => []
  | (k', v') :: d' => if k' =? k then del k d' else (k', v') :: del k d'
  end.

Definition keys (d : dict) : list string := map fst d.
Definition values (d : dict) : list V := map snd d.

(** Lookup with a caller-supplied argument as key; [None] is the key
    of no entry. *)
Definition get_value (k : value) (d : dict) : option V :=
  match k with
  | Some s => get s d
  | None => None
  end.
End Dict.

Arguments dict V : clear implicits.

End Py.

Import Py.

(** ** The data model *)

Module Room.
Record t : Type := Build
  { room_type : string; price : float; is_occupied : bool }.
Definition set_is_occupied (b : bool) (r : t) : t :=
  Build (room_type r) (price r) b.
End Room.

Module Customer.
Record t : Type := Build { name : string; phone : string }.
End Customer.

Module Booking.
Record t : Type := Build { customer_id : string; room_number : string }.
End Booking.

Record HotelManagement : Type := mkHotel
  { rooms : dict Room.t;
    customers : dict Customer.t;
    bookings : dict Booking.t }.

(** [self.max_rooms], set once by [__init__] and never assigned again. *)
Definition max_rooms : nat := 20.

(** The store [__init__] builds before [load_data]. *)
Definition empty_store : HotelManagement := mkHotel [] [] [].

(** The second component of an operation's result: a plain text, or a
    prefix followed by the text of a caught exception. *)
Inductive message : Type :=
| Text (s : string)
| ErrorText (prefix : string) (e : exn).

Definition result : Type := bool * message.

Definition with_rooms (self : HotelManagement) (r : dict Room.t) :=
  mkHotel r (customers self) (bookings self).
Definition with_customers (self : HotelManagement) (c : dict Customer.t) :=
  mkHotel (rooms self) c (bookings self).

(** [_norm(value)]: [str(value).strip() if value else ''] *)
Definition _norm (v : value) : string :=
  match v with
  | Some s => if truthy v then strip s else ""
  | None => ""
  end.

(** ** The operations

    Each returns its [(success, message)] pair and the store it leaves. *)

Definition add_room (self : HotelManagement)
    (room_number room_type : value) (price : option float)
  : result * HotelManagement :=
  let room_number := _norm room_number in
  let room_type := _norm room_type in
  let invalid := ((false, Text "Invalid room details"), self) in
  match price with
  | None => invalid
  | Some p =>
      if negb (negb (room_number =? "") && negb (room_type =? ""))
         || PrimFloat.leb p 0%float
      then invalid
      else
        match int room_number with
        | None =>
            ((false,
              ErrorText "Error adding room: " (ValueError_int room_number)),
             self)
        | Some n =>
            if negb ((1001 <=? n)%Z && (n <=? 1020)%Z)
            then ((false, Text "Room number must be between 1001-1020"), self)
            else if mem room_number (rooms self)
            then ((false, Text ("Room " ++ room_number ++ " already exists")),
                  self)
            else if (max_rooms <=? length (rooms self))%nat
            then ((false,
                   Text ("Cannot add more rooms. Capacity "
                         ++ str_nat max_rooms ++ " reached")), self)
            else
              ((true, Text ("Room " ++ room_number ++ " added successfully")),
               with_rooms self
                 (set room_number (Room.Build room_type p false)
                      (rooms self)))
        end
  end.

Definition remove_room (self : HotelManagement) (room_number : value)
  : result * HotelManagement :=
  match room_number, get_value room_number (rooms self) with
  | Some k, Some r =>
      if Room.is_occupied r
      then ((false, Text "Room is occupied"), self)
      else ((true, Text ("Room " ++ k ++ " removed")),
            with_rooms self (del k (rooms self)))
  | _, _ => ((false, Text "Room not found"), self)
  end.

(** The loop of [add_customer] over [self.customers.values()]: the text
    of the first refusal, if any. *)
Fixpoint existing_conflict (existing : list Customer.t) (name phone : string)
  : option string :=
  match existing with
  | [] => None
  | e :: rest =>
      if _norm (Some (Customer.phone e)) =? phone
      then Some "Customer with this phone already exists"
      else if (_norm (Some (Customer.name e)) =? name)
              && (_norm (Some (Customer.phone e)) =? phone)
      then Some "Customer already exists"
      else existing_conflict rest name phone
  end.

Definition add_customer (self : HotelManagement)
    (customer_id name phone : value) : result * HotelManagement :=
  let customer_id := _norm customer_id in
  let name := _norm name in
  let phone := _norm phone in
  if negb (negb (customer_id =? "") && negb (name =? "")
           && negb (phone =? ""))
  then ((false, Text "Invalid customer details"), self)
  else if mem customer_id (customers self)
  then ((false, Text "Customer ID exists"), self)
  else
    match existing_conflict (values (customers self)) name phone with
    | Some m => ((false, Text m), self)
    | None =>
        ((true, Text ("Customer " ++ name ++ " added")),
         with_customers self
           (set customer_id (Customer.Build name phone) (customers self)))
    end.

(** [any(b['customer_id'] == customer_id for b in self.bookings.values())] *)
Definition has_booking (self : HotelManagement) (customer_id : string) : bool :=
  existsb (fun b => Booking.customer_id b =? customer_id)
          (values (bookings self)).

Definition remove_customer (self : HotelManagement) (customer_id : value)
  : result * HotelManagement :=
  match customer_id, get_value customer_id (customers self) with
  | Some k, Some _ =>
      if has_booking self k
      then ((false, Text "Customer has active bookings"), self)
      else ((true, Text "Customer removed"),
            with_customers self (del k (customers self)))
  | _, _ => ((false, Text "Customer not found"), self)
  end.

Definition book_room (self : HotelManagement) (customer_id room_number : value)
  : result * HotelManagement :=
  let customer_id := _norm customer_id in
  let room_number := _norm room_number in
  match mem customer_id (customers self), get room_number (rooms self) with
  | true, Some r =>
      if Room.is_occupied r
      then ((false, Text "Room is occupied"), self)
      else if has_booking self customer_id
      then ((false, Text "Customer already has an active booking"), self)
      else
        let booking_id := "B" ++ str_nat (length (bookings self) + 1) in
        ((true, Text ("Room " ++ room_number ++ " booked")),
         mkHotel
           (set room_number (Room.set_is_occupied true r) (rooms self))
           (customers self)
           (set booking_id (Booking.Build customer_id room_number)
                (bookings self)))
  | _, _ => ((false, Text "Invalid customer or room"), self)
  end.

(** The loop of [checkout] over [list(self.bookings.items())]: the first
    booking of the room is deleted, then the loop breaks. *)
Fixpoint delete_first_booking (items : list (string * Booking.t))
    (room_number : string) (b : dict Booking.t) : dict Booking.t :=
  match items with
  | [] => b
  | (bid, booking) :: rest =>
      if Booking.room_number booking =? room_number
      then del bid b
      else delete_first_booking rest room_number b
  end.

Definition checkout (self : HotelManagement) (room_number : value)
  : result * HotelManagement :=
  match room_number, get_value room_number (rooms self) with
  | Some k, Some r =>
      if negb (Room.is_occupied r)
      then ((false, Text "Room not occupied"), self)
      else
        ((true, Text ("Room " ++ k ++ " checked out")),
         mkHotel
           (set k (Room.set_is_occupied false r) (rooms self))
           (customers self)
           (delete_first_booking (bookings self) k (bookings self)))
  | _, _ => ((false, Text "Room not found"), self)
  end.

(** ** Sequences of operations *)

Inductive request : Type :=
| AddRoom (room_number room_type : value) (price : option float)
| RemoveRoom (room_number : value)
| AddCustomer (customer_id name phone : value)
| RemoveCustomer (customer_id : value)
| BookRoom (customer_id room_number : value)
| Checkout (room_number : value).

Definition handle (self : HotelManagement) (rq : request)
  : result * HotelManagement :=
  match rq with
  | AddRoom n t p => add_room self n t p
  | RemoveRoom n => remove_room self n
  | AddCustomer c n p => add_customer self c n p
  | RemoveCustomer c => remove_customer self c
  | BookRoom c n => book_room self c n
  | Checkout n => checkout self n
  end.

(** The store after a sequence of requests. *)
Definition run (self : HotelManagement) (rqs : list request)
  : HotelManagement :=
  fold_left (fun s rq => snd (handle s rq)) rqs self.

(** The stores the six operations can build from the empty one. *)
Inductive reachable : HotelManagement -> Prop :=
| reach_empty : reachable empty_store
| reach_step (s : HotelManagement) (rq : request) :
    reachable s -> reachable (snd (handle s rq)).

(** ** The [csv] module, as [save_data] and [load_data] use it

    The default dialect: delimiter [,], quote character U+0022 doubled
    inside a quoted field, line terminator CR LF, minimal quoting, not
    strict, no escape character. The reader is that of CPython 3.11,
    for which a NUL is a character like any other. *)

Module Csv.

Definition CR : ascii := "013"%char.
Definition LF : ascii := "010"%char.
Definition QUOTE : ascii := "034"%char.
Definition CRLF : string := String CR (String LF EmptyString).

(** Minimal quoting: a field is quoted when it holds the delimiter, the
    quote character or a character of the line terminator. *)
Fixpoint needs_quotes (s : string) : bool :=
  match s with
  | String c s' =>
      (c =? ",")%char || (c =? QUOTE)%char || (c =? CR)%char
      || (c =? LF)%char || needs_quotes s'
  | EmptyString => false
  end.

Fixpoint double_quotes (s : string) : string :=
  match s with
  | String c s' =>
      if (c =? QUOTE)%char
      then String QUOTE (String QUOTE (double_quotes s'))
      else String c (double_quotes s')
  | EmptyString => EmptyString
  end.

Definition write_field (s : string) : string :=
  if needs_quotes s
  then String QUOTE (double_quotes s ++ String QUOTE EmptyString)
  else s.

(** [writer.writerow(fields)]: a row made of one empty field is written
    as a pair of quotes. *)
Definition writerow (fields : list string) : string :=
  match fields with
  | [EmptyString] => String QUOTE (String QUOTE CRLF)
  | _ => String.concat "," (map write_field fields) ++ CRLF
  end.

(** Reading a file opened in text mode with the default [newline=None]:
    CR LF and a lone CR both arrive as LF. *)
Fixpoint universal_newlines (s : string) : string :=
  match s with
  | String c s' =>
      if (c =? CR)%char then
        match s' with
        | String c' s'' =>
            if (c' =? LF)%char
            then String LF (universal_newlines s'')
            else String LF (universal_newlines s')
        | EmptyString => String LF EmptyString
        end
      else String c (universal_newlines s')
  | EmptyString => EmptyString
  end.

(** Iterating over the file: the lines, each with its final LF. [cur]
    is the line being read, reversed. *)
Fixpoint lines_from (s : string) (cur : list ascii) : list (list ascii) :=
  match s with
  | String c s' =>
      if (c =? LF)%char then rev (c :: cur) :: lines_from s' []
      else lines_from s' (c :: cur)
  | EmptyString =>
      match cur with
      | [] => []
      | _ => [rev cur]
      end
  end.

Definition lines (s : string) : list (list ascii) := lines_from s [].

(** The states of the reader that this dialect can reach. *)
Inductive parser_state : Type :=
| START_RECORD | START_FIELD | IN_FIELD | IN_QUOTED_FIELD
| QUOTE_IN_QUOTED_FIELD | EAT_CRNL.

(** The reader: its state, the field being read and the fields of the
    record read so far. *)
Record reader : Type := mkReader
  { state : parser_state; field : string; fields : list string }.

Definition parse_reset : reader := mkReader START_RECORD "" [].

Definition parse_add_char (r : reader) (c : ascii) : reader :=
  mkReader (state r) (field r ++ String c EmptyString) (fields r).

Definition parse_save_field (r : reader) : reader :=
  mkReader (state r) "" (fields r ++ [field r]).

Definition set_state (st : parser_state) (r : reader) : reader :=
  mkReader st (field r) (fields r).

Definition is_newline (c : ascii) : bool := (c =? LF)%char || (c =? CR)%char.

(** [parse_process_char]: one character of a line ([Some c]) or the end
    of the line ([None]). The result is [None] when the reader raises. *)
Definition parse_process_char (r : reader) (c : option ascii) : option reader :=
  match state r, c with
  | START_RECORD, None => Some r
  | (START_RECORD | START_FIELD), Some ch =>
      if is_newline ch then
        match state r with
        | START_RECORD => Some (set_state EAT_CRNL r)
        | _ => Some (set_state EAT_CRNL (parse_save_field r))
        end
      else if (ch =? QUOTE)%char then Some (set_state IN_QUOTED_FIELD r)
      else if (ch =? ",")%char
      then Some (set_state START_FIELD (parse_save_field r))
      else Some (set_state IN_FIELD (parse_add_char r ch))
  | START_FIELD, None => Some (set_state START_RECORD (parse_save_field r))
  | IN_FIELD, None => Some (set_state START_RECORD (parse_save_field r))
  | IN_FIELD, Some ch =>
      if is_newline ch then Some (set_state EAT_CRNL (parse_save_field r))
      else if (ch =? ",")%char
      then Some (set_state START_FIELD (parse_save_field r))
      else Some (parse_add_char r ch)
  | IN_QUOTED_FIELD, None => Some r
  | IN_QUOTED_FIELD, Some ch =>
      if (ch =? QUOTE)%char then Some (set_state QUOTE_IN_QUOTED_FIELD r)
      else Some (parse_add_char r ch)
  | QUOTE_IN_QUOTED_FIELD, None =>
      Some (set_state START_RECORD (parse_save_field r))
  | QUOTE_IN_QUOTED_FIELD, Some ch =>
      if (ch =? QUOTE)%char
      then Some (set_state IN_QUOTED_FIELD (parse_add_char r ch))
      else if (ch =? ",")%char
      then Some (set_state START_FIELD (parse_save_field r))
      else if is_newline ch
      then Some (set_state EAT_CRNL (parse_save_field r))
      else Some (set_state IN_FIELD (parse_add_char r ch))
  | EAT_CRNL, None => Some (set_state START_RECORD r)
  | EAT_CRNL, Some ch => if is_newline ch then Some r else None
  end.

Fixpoint process_line (r : reader) (line : list ascii) : option reader :=
  match line with
  | [] => parse_process_char r None
  | c :: line' =>
      match parse_process_char r (Some c) with
      | Some r' => process_line r' line'
      | None => None
      end
  end.

(** The records the reader yields over the lines of a file: a record is
    complete when a line ends in the state [START_RECORD]; at the end of
    the input an unfinished record is yielded as it is. *)
Fixpoint read_records (r : reader) (ls : list (list ascii))
  : option (list (list string)) :=
  match ls with
  | [] =>
      match state r, field r with
      | IN_QUOTED_FIELD, _ | _, String _ _ =>
          Some [fields (parse_save_field r)]
      | _, _ => Some []
      end
  | l :: ls' =>
      match process_line r l with
      | None => None
      | Some r' =>
          match state r' with
          | START_RECORD =>
              option_map (cons (fields r')) (read_records parse_reset ls')
          | _ => read_records r' ls'
          end
      end
  end.

(** [csv.reader(f)] on the text of a file. *)
Definition reader_rows (text : string) : option (list (list string)) :=
  read_records parse_reset (lines text).

(** [row[k]] for a [DictReader] row: the fields paired with the names of
    the header, a later column of the same name winning. [None] when the
    header has no such column or the row is too short to reach it. *)
Fixpoint row_get (k : string) (header row : list string) : option string :=
  match header, row with
  | h :: header', v :: row' =>
      match row_get k header' row' with
      | Some w => Some w
      | None => if h =? k then Some v else None
      end
  | _, _ => None
  end.

End Csv.

(** ** Persistence

    [str] and [float] on floating-point numbers are the interpreter's;
    they are parameters here. *)

Record files : Type := mkFiles
  { rooms_csv : option string;
    customers_csv : option string;
    bookings_csv : option string }.

Section Persistence.
Variable str_float : float -> string.
Variable float_of_str : string -> option float.

(** A table as [DictWriter] writes it: the header, then a row per entry. *)
Definition write_table {V : Type} (fieldnames : list string)
    (row : string -> V -> list string) (d : dict V) : string :=
  String.concat ""
    (Csv.writerow fieldnames
     :: map (fun e => Csv.writerow (row (fst e) (snd e))) d).

Definition save_data (self : HotelManagement) : files :=
  mkFiles
    (Some (write_table ["room_number"; "room_type"; "price"; "is_occupied"]
             (fun room_number info =>
                [room_number; Room.room_type info;
                 str_float (Room.price info);
                 str_bool (Room.is_occupied info)])
             (rooms self)))
    (Some (write_table ["customer_id"; "name"; "phone"]
             (fun customer_id info =>
                [customer_id; Customer.name info; Customer.phone info])
             (customers self)))
    (Some (write_table ["booking_id"; "customer_id"; "room_number"]
             (fun booking_id info =>
                [booking_id; Booking.customer_id info;
                 Booking.room_number info])
             (bookings self))).

(** The loop [for row in reader] of [load_data] over the records after
    the header; empty records are skipped by [DictReader]. [None] when
    [entry] fails on a row. *)
Fixpoint load_rows {V : Type} (entry : list string -> option (string * V))
    (rows : list (list string)) (d : dict V) : option (dict V) :=
  match rows with
  | [] => Some d
  | [] :: rows' => load_rows entry rows' d
  | row :: rows' =>
      match entry row with
      | Some (k, v) => load_rows entry rows' (set k v d)
      | None => None
      end
  end.

(** One table of [load_data]: nothing to do when the file is missing. *)
Definition load_table {V : Type} (file : option string)
    (entry : list string -> list string -> option (string * V)) (d : dict V)
  : option (dict V) :=
  match file with
  | None => Some d
  | Some text =>
      match Csv.reader_rows (Csv.universal_newlines text) with
      | None => None
      | Some [] => Some d
      | Some (header :: rows) => load_rows (entry header) rows d
      end
  end.

Definition room_entry (header row : list string) : option (string * Room.t) :=
  match Csv.row_get "room_number" header row,
        Csv.row_get "room_type" header row,
        Csv.row_get "price" header row,
        Csv.row_get "is_occupied" header row with
  | Some n, Some t, Some p, Some o =>
      match float_of_str p with
      | Some x => Some (n, Room.Build t x (lower o =? "true"))
      | None => None
      end
  | _, _, _, _ => None
  end.

Definition customer_entry (header row : list string)
  : option (string * Customer.t) :=
  match Csv.row_get "customer_id" header row,
        Csv.row_get "name" header row,
        Csv.row_get "phone" header row with
  | Some c, Some n, Some p => Some (c, Customer.Build n p)
  | _, _, _ => None
  end.

Definition booking_entry (header row : list string)
  : option (string * Booking.t) :=
  match Csv.row_get "booking_id" header row,
        Csv.row_get "customer_id" header row,
        Csv.row_get "room_number" header row with
  | Some b, Some c, Some n => Some (b, Booking.Build c n)
  | _, _, _ => None
  end.

(** [load_data]: [None] when it raises, or when a row is shorter than
    the header, which would store [None] where the store holds strings. *)
Definition load_data (self : HotelManagement) (disk : files)
  : option HotelManagement :=
  match load_table (rooms_csv disk) room_entry (rooms self) with
  | None => None
  | Some r =>
      match load_table (customers_csv disk) customer_entry (customers self) with
      | None => None
      | Some c =>
          match
            load_table (bookings_csv disk) booking_entry (bookings self)
          with
          | None => None
          | Some b => Some (mkHotel r c b)
          end
      end
  end.

End Persistence.

(** ** The queries *)

(** [available_rooms]: the rooms that are not occupied, in the order of
    the store. *)
Definition available_rooms (self : HotelManagement) : dict Room.t :=
  filter (fun e => negb (Room.is_occupied (snd e))) (rooms self).

(** [sum(1 for x in l if p(x))] *)
Definition sum_ones {A : Type} (p : A -> bool) (l : list A) : Z :=
  fold_right Z.add 0%Z (map (fun _ => 1%Z) (filter p l)).

Module Stats.
Record t : Type := Build
  { max_rooms : Z;
    total_rooms : Z;
    occupied_rooms : Z;
    available_rooms : Z;
    customers : Z;
    bookings : Z }.
End Stats.

Definition stats (self : HotelManagement) : Stats.t :=
  let total := Z.of_nat (length (rooms self)) in
  let occupied := sum_ones Room.is_occupied (values (rooms self)) in
  let available := (total - occupied)%Z in
  Stats.Build (Z.of_nat max_rooms) total occupied available
    (Z.of_nat (length (customers self))) (Z.of_nat (length (bookings self))).

(** ** The invariant of the reachable stores *)

(** A key that normalisation leaves as it is. *)
Definition normal (k : string) : Prop := _norm (Some k) = k.

(** A booking refers to a customer of the store and to a room of the
    store that is marked occupied. *)
Definition booked_ok (s : HotelManagement) (e : string * Booking.t) : Prop :=
  get (Booking.customer_id (snd e)) (customers s) <> None /\
  exists r, get (Booking.room_number (snd e)) (rooms s) = Some r
            /\ Room.is_occupied r = true.

Definition booking_customer (e : string * Booking.t) : string :=
  Booking.customer_id (snd e).
Definition booking_room (e : string * Booking.t) : string :=
  Booking.room_number (snd e).
Definition normal_phone (e : string * Customer.t) : string :=
  _norm (Some (Customer.phone (snd e))).

Record Inv (s : HotelManagement) : Prop := mkInv
  { inv_room_keys : NoDup (keys (rooms s));
    inv_customer_keys : NoDup (keys (customers s));
    inv_booking_keys : NoDup (keys (bookings s));
    inv_rooms_normal : Forall (fun e => normal (fst e)) (rooms s);
    inv_customers_normal : Forall (fun e => normal (fst e)) (customers s);
    inv_booked : Forall (booked_ok s) (bookings s);
    inv_one_per_customer : NoDup (map booking_customer (bookings s));
    inv_one_per_room : NoDup (map booking_room (bookings s));
    inv_phones : NoDup (map normal_phone (customers s));
    inv_capacity : length (rooms s) <= max_rooms }.

(** A string that does not begin with a whitespace character. *)
Definition head_ok (s : string) : Prop :=
  match s with
  | String c _ => is_space c = false
  | EmptyString => True
  end.

(** Projections of a store that an operation has rebuilt. *)
Ltac store_simpl :=
  cbn [fst snd rooms customers bookings with_rooms with_customers].

(** What [add_room] checks of a room it stores, and [add_customer] of a
    customer. *)
Definition room_ok (e : string * Room.t) : Prop :=
  (exists n, int (fst e) = Some n /\ (1001 <= n <= 1020)%Z) /\
  fst e <> "" /\ normal (fst e) /\
  Room.room_type (snd e) <> "" /\ normal (Room.room_type (snd e)) /\
  PrimFloat.leb (Room.price (snd e)) 0%float = false.

Definition customer_ok (e : string * Customer.t) : Prop :=
  fst e <> "" /\ normal (fst e) /\
  Customer.name (snd e) <> "" /\ normal (Customer.name (snd e)) /\
  Customer.phone (snd e) <> "" /\ normal (Customer.phone (snd e)).

(** The last character of a string. *)
Fixpoint last_char (s : string) : option ascii :=
  match s with
  | EmptyString => None
  | String c EmptyString => Some c
  | String _ s' => last_char s'
  end.

(** A string of whitespace characters only. *)
Fixpoint all_space (s : string) : bool :=
  match s with
  | EmptyString => true
  | String c s' => is_space c && all_space s'
  end.

(** ** The reader as one pass over a text

    What [Csv.read_records] computes over the lines of a text, computed
    character by character: [mid] tells whether the line being read has
    a character already. *)


(** The end of a line: the record is yielded when the reader is back in
    the state [START_RECORD]. *)
Definition end_of_line (r : Csv.reader)
    (next : Csv.reader -> option (list (list string)))
  : option (list (list string)) :=
  match Csv.parse_process_char r None with
  | None => None
  | Some r' =>
      match Csv.state r' with
      | Csv.START_RECORD =>
          option_map (cons (Csv.fields r')) (next Csv.parse_reset)
      | _ => next r'
      end
  end.

Fixpoint read_text (r : Csv.reader) (mid : bool) (s : string)
  : option (list (list string)) :=
  match s with
  | EmptyString =>
      if mid then end_of_line r (fun r' => Csv.read_records r' [])
      else Csv.read_records r []
  | String c s' =>
      match Csv.parse_process_char r (Some c) with
      | None => None
      | Some r1 =>
          if (c =? Csv.LF)%char
          then end_of_line r1 (fun r' => read_text r' false s')
          else read_text r1 true s'
      end
  end.









(** ** Scenarios *)

Definition standard (room_number : string) : request :=
  AddRoom (Some room_number) (Some "Standard") (Some 100%float).

(** Two bookings, the checkout of the first, and a third booking, which
    is given the identifier of the second. *)
Definition collision_trace : list request :=
  [ standard "1001"; standard "1002"; standard "1003";
    AddCustomer (Some "C1") (Some "Ann") (Some "111");
    AddCustomer (Some "C2") (Some "Bob") (Some "222");
    AddCustomer (Some "C3") (Some "Cid") (Some "333");
    BookRoom (Some "C1") (Some "1001");
    BookRoom (Some "C2") (Some "1002");
    Checkout (Some "1001");
    BookRoom (Some "C3") (Some "1003") ].

Definition collision_store : HotelManagement := run empty_store collision_trace.

(** The twenty rooms 1001 to 1020. *)
Definition full_house : list request :=
  map (fun n => standard (str_nat n)) (seq 1001 20).

Definition full_store : HotelManagement := run empty_store full_house.

(** One room, one customer, and the customer's booking of the room. *)
Definition booked_store : HotelManagement :=
  run empty_store
    [ AddRoom (Some "1005") (Some "Deluxe") (Some 150%float);
      AddCustomer (Some "C1") (Some "Ann") (Some "111");
      BookRoom (Some "C1") (Some "1005") ].

(** One free room and one customer without booking. *)
Definition idle_store : HotelManagement :=
  run empty_store
    [ AddRoom (Some "1005") (Some "Deluxe") (Some 150%float);
      AddCustomer (Some "C1") (Some "Ann") (Some "111") ].

(** A customer whose name holds a carriage return. *)
Definition cr_name : string := String "a" (String Csv.CR "b").
Definition lf_name : string := String "a" (String Csv.LF "b").

Definition cr_store : HotelManagement :=
  run empty_store [ AddCustomer (Some "C1") (Some cr_name) (Some "555") ].

(** * Properties *)

(** ** Strings and normalisation *)

Section Strip.

Lemma lstrip_head_ok (s : string) : head_ok (lstrip s).
Proof.
  induction s as [|c s IH]; simpl; [exact I|].
  destruct (is_space c) eqn:E; [exact IH | exact E].
Qed.

Lemma lstrip_fixed (s : string) : head_ok s -> lstrip s = s.
Proof.
  destruct s as [|c s]; simpl; [reflexivity|].
  intros ->. reflexivity.
Qed.

Lemma rstrip_head_ok (s : string) : head_ok s -> head_ok (rstrip s).
Proof.
  destruct s as [|c s]; simpl; [trivial|].
  intros E. destruct (rstrip s); [rewrite E|]; exact E.
Qed.

Lemma rstrip_idem (s : string) : rstrip (rstrip s) = rstrip s.
Proof.
  induction s as [|c s IH]; simpl; [reflexivity|].
  destruct (rstrip s) as [|d r] eqn:E.
  - destruct (is_space c) eqn:Ec; simpl; [reflexivity|].
    rewrite Ec. reflexivity.
  - change (rstrip (String c (String d r))) with
      (match rstrip (String d r) with
       | EmptyString =>
           if is_space c then EmptyString else String c EmptyString
       | x => String c x
       end).
    rewrite IH. reflexivity.
Qed.

Lemma strip_idem (s : string) : strip (strip s) = strip s.
Proof.
  unfold strip.
  rewrite (lstrip_fixed (rstrip (lstrip s))).
  - apply rstrip_idem.
  - apply rstrip_head_ok, lstrip_head_ok.
Qed.

End Strip.

Lemma norm_Some (s : string) :
  _norm (Some s) = if s =? "" then "" else strip s.
Proof. unfold _norm, truthy. destruct (s =? ""); reflexivity. Qed.

Lemma norm_idem (v : value) : _norm (Some (_norm v)) = _norm v.
Proof.
  destruct v as [s|]; [|reflexivity].
  rewrite (norm_Some s). destruct (s =? ""); [reflexivity|].
  rewrite norm_Some. destruct (strip s =? "") eqn:E.
  - symmetry. apply String.eqb_eq, E.
  - apply strip_idem.
Qed.

(** Arguments that differ in surrounding whitespace only have the same
    normal form. *)
Lemma norm_strip (s : string) : _norm (Some (strip s)) = _norm (Some s).
Proof.
  rewrite !norm_Some. destruct (s =? "") eqn:E.
  - apply String.eqb_eq in E. subst s. reflexivity.
  - destruct (strip s =? "") eqn:E'.
    + symmetry. apply String.eqb_eq, E'.
    + apply strip_idem.
Qed.

(** ** Dictionaries *)

Section DictFacts.
Context {V : Type}.
Implicit Types (d : dict V) (k : string) (v : V) (e : string * V).

Lemma get_In k v d : get k d = Some v -> In (k, v) d.
Proof.
  induction d as [|[k' v'] d IH]; simpl; [discriminate|].
  destruct (k' =? k) eqn:E.
  - apply String.eqb_eq in E. intros [= ->]. left. congruence.
  - intros H. right. exact (IH H).
Qed.

Lemma mem_true k d : mem k d = true <-> get k d <> None.
Proof. unfold mem. destruct (get k d); split; congruence. Qed.

Lemma mem_false k d : mem k d = false <-> get k d = None.
Proof. unfold mem. destruct (get k d); split; congruence. Qed.

Lemma get_set_same k v d : get k (set k v d) = Some v.
Proof.
  induction d as [|[k' v'] d IH]; simpl.
  - rewrite String.eqb_refl. reflexivity.
  - destruct (k' =? k) eqn:E; simpl; rewrite E; [reflexivity | exact IH].
Qed.

Lemma get_set_other k k' v d : k' <> k -> get k' (set k v d) = get k' d.
Proof.
  intros N. induction d as [|[k0 v0] d IH]; simpl.
  - apply String.eqb_neq in N. rewrite String.eqb_sym, N. reflexivity.
  - destruct (k0 =? k) eqn:E; simpl.
    + apply String.eqb_eq in E. subst k0.
      apply not_eq_sym, String.eqb_neq in N. rewrite N. reflexivity.
    + rewrite IH. reflexivity.
Qed.

Lemma In_set e k v d : In e (set k v d) -> In e d \/ e = (k, v).
Proof.
  induction d as [|[k0 v0] d IH]; simpl.
  - intros [<-|[]]. right. reflexivity.
  - destruct (k0 =? k) eqn:E; simpl.
    + apply String.eqb_eq in E. subst k0. intros [<-|H]; auto.
    + intros [<-|H]; auto. destruct (IH H); auto.
Qed.

Lemma Forall_set (P : string * V -> Prop) k v d :
  Forall P d -> P (k, v) -> Forall P (set k v d).
Proof.
  intros H Hk. apply Forall_forall. intros e He.
  destruct (In_set _ _ _ _ He) as [Hd | ->]; [|exact Hk].
  rewrite Forall_forall in H. exact (H e Hd).
Qed.

(** Setting a key keeps the keys pairwise distinct. *)
Lemma NoDup_keys_set k v d : NoDup (keys d) -> NoDup (keys (set k v d)).
Proof.
  unfold keys. induction d as [|[k0 v0] d IH]; simpl; intros H.
  - constructor; [intros [] | constructor].
  - inversion H as [|? ? Hn Hd]; subst.
    destruct (k0 =? k) eqn:E; simpl; constructor; auto.
    intros Hin. apply in_map_iff in Hin. destruct Hin as [e [Hf He]].
    destruct (In_set _ _ _ _ He) as [Hd' | ->].
    + apply Hn. rewrite <- Hf. apply in_map, Hd'.
    + simpl in Hf. subst k0. rewrite String.eqb_refl in E. discriminate.
Qed.

(** Setting a key whose new entry is like no entry of the dictionary
    (under [f]) keeps the entries pairwise unlike. *)
Lemma NoDup_map_set {A : Type} (f : string * V -> A) k v d :
  (forall k', f (k', v) = f (k, v)) ->
  NoDup (map f d) -> ~ In (f (k, v)) (map f d) -> NoDup (map f (set k v d)).
Proof.
  intros Hf. induction d as [|[k0 v0] d IH]; simpl; intros H Hn.
  - constructor; [intros [] | constructor].
  - inversion H as [|? ? Hn0 Hd]; subst.
    destruct (k0 =? k) eqn:E; simpl.
    + constructor; [|exact Hd]. rewrite Hf. tauto.
    + constructor; [|apply IH; tauto].
      intros Hin. apply in_map_iff in Hin. destruct Hin as [e [He1 He2]].
      destruct (In_set _ _ _ _ He2) as [Hd' | ->].
      * apply Hn0. rewrite <- He1. apply in_map, Hd'.
      * apply Hn. left. symmetry. exact He1.
Qed.

Lemma length_set k v d : length (set k v d) <= S (length d).
Proof.
  induction d as [|[k0 v0] d IH]; simpl; [lia|].
  destruct (k0 =? k); simpl; lia.
Qed.

Lemma length_set_mem k v d : get k d <> None -> length (set k v d) = length d.
Proof.
  induction d as [|[k0 v0] d IH]; simpl; [congruence|].
  destruct (k0 =? k); simpl; intros H; [reflexivity|].
  rewrite IH; auto.
Qed.

Lemma In_del e k d : In e (del k d) <-> In e d /\ fst e <> k.
Proof.
  induction d as [|[k0 v0] d IH]; simpl; [tauto|].
  destruct (k0 =? k) eqn:E.
  - apply String.eqb_eq in E. subst k0. rewrite IH. split.
    + tauto.
    + intros [[<-|H] N]; [simpl in N; congruence | tauto].
  - apply String.eqb_neq in E. simpl. rewrite IH. split.
    + intros [<-|H]; simpl; tauto.
    + tauto.
Qed.

Lemma get_del_same k d : get k (del k d) = None.
Proof.
  induction d as [|[k0 v0] d IH]; simpl; [reflexivity|].
  destruct (k0 =? k) eqn:E; simpl; [|rewrite E]; exact IH.
Qed.

Lemma get_del_other k k' d : k' <> k -> get k' (del k d) = get k' d.
Proof.
  intros N. induction d as [|[k0 v0] d IH]; simpl; [reflexivity|].
  destruct (k0 =? k) eqn:E; simpl.
  - apply String.eqb_eq in E. subst k0.
    apply not_eq_sym, String.eqb_neq in N. rewrite N. exact IH.
  - rewrite IH. reflexivity.
Qed.

Lemma Forall_del (P : string * V -> Prop) k d :
  Forall P d -> Forall P (del k d).
Proof.
  rewrite !Forall_forall. intros H e He. apply H, (In_del e k d), He.
Qed.

Lemma NoDup_map_del {A : Type} (f : string * V -> A) k d :
  NoDup (map f d) -> NoDup (map f (del k d)).
Proof.
  induction d as [|[k0 v0] d IH]; simpl; intros H; [constructor|].
  inversion H as [|? ? Hn Hd]; subst.
  destruct (k0 =? k); simpl; auto. constructor; auto.
  intros Hin. apply in_map_iff in Hin. destruct Hin as [e [He1 He2]].
  apply Hn. rewrite <- He1. apply in_map, (In_del e k d), He2.
Qed.

Lemma length_del k d : length (del k d) <= length d.
Proof.
  induction d as [|[k0 v0] d IH]; simpl; [lia|].
  destruct (k0 =? k); simpl; lia.
Qed.

(** Entries that [f] cannot tell apart are the same entry. *)
Lemma NoDup_map_inj {A B : Type} (f : A -> B) (l : list A) (x y : A) :
  NoDup (map f l) -> In x l -> In y l -> f x = f y -> x = y.
Proof.
  induction l as [|a l IH]; simpl; [tauto|].
  intros H. inversion H as [|? ? Hn Hd]; subst.
  intros [->|Hx] [->|Hy] E; auto.
  - exfalso. apply Hn. rewrite E. apply in_map, Hy.
  - exfalso. apply Hn. rewrite <- E. apply in_map, Hx.
Qed.

End DictFacts.

(** ** The cases of each operation

    Every operation either refuses and returns the store it was given,
    or passes all its checks and returns the updated store. *)

Lemma eqb_false_neq (a b : string) : (a =? b) = false -> a <> b.
Proof. apply String.eqb_neq. Qed.

Lemma add_room_cases (s : HotelManagement) (a t : value) (p : option float) :
  (exists m, add_room s a t p = ((false, m), s)) \/
  (exists x n,
      p = Some x /\ PrimFloat.leb x 0%float = false /\
      _norm a <> "" /\ _norm t <> "" /\
      int (_norm a) = Some n /\ (1001 <= n <= 1020)%Z /\
      get (_norm a) (rooms s) = None /\ length (rooms s) < max_rooms /\
      add_room s a t p =
        ((true, Text ("Room " ++ _norm a ++ " added successfully")),
         with_rooms s
           (set (_norm a) (Room.Build (_norm t) x false) (rooms s)))).
Proof.
  unfold add_room. destruct p as [x|]; [|left; eauto].
  destruct (_norm a =? "") eqn:Ea; cbn [negb andb orb]; [left; eauto|].
  destruct (_norm t =? "") eqn:Et; cbn [negb andb orb]; [left; eauto|].
  destruct (PrimFloat.leb x 0) eqn:Ex; [left; eauto|].
  destruct (int (_norm a)) as [n|] eqn:En; [|left; eauto].
  destruct (1001 <=? n)%Z eqn:E1; cbn [negb andb orb]; [|left; eauto].
  destruct (n <=? 1020)%Z eqn:E2; cbn [negb andb orb]; [|left; eauto].
  destruct (mem (_norm a) (rooms s)) eqn:Em; [left; eauto|].
  destruct (max_rooms <=? length (rooms s))%nat eqn:El; [left; eauto|].
  right. exists x, n. repeat split; auto using eqb_false_neq.
  - apply Z.leb_le, E1.
  - apply Z.leb_le, E2.
  - apply mem_false, Em.
  - apply Nat.leb_gt, El.
Qed.

Lemma remove_room_cases (s : HotelManagement) (a : value) :
  (exists m, remove_room s a = ((false, m), s)) \/
  (exists k r,
      a = Some k /\ get k (rooms s) = Some r /\ Room.is_occupied r = false /\
      remove_room s a =
        ((true, Text ("Room " ++ k ++ " removed")),
         with_rooms s (del k (rooms s)))).
Proof.
  unfold remove_room. destruct a as [k|]; cbn [get_value]; [|left; eauto].
  destruct (get k (rooms s)) as [r|] eqn:E; [|left; eauto].
  destruct (Room.is_occupied r) eqn:Eo; [left; eauto|].
  right. exists k, r. auto.
Qed.

Lemma add_customer_cases (s : HotelManagement) (c n p : value) :
  (exists m, add_customer s c n p = ((false, m), s)) \/
  (_norm c <> "" /\ _norm n <> "" /\ _norm p <> "" /\
   get (_norm c) (customers s) = None /\
   existing_conflict (values (customers s)) (_norm n) (_norm p) = None /\
   add_customer s c n p =
     ((true, Text ("Customer " ++ _norm n ++ " added")),
      with_customers s
        (set (_norm c) (Customer.Build (_norm n) (_norm p)) (customers s)))).
Proof.
  unfold add_customer.
  destruct (_norm c =? "") eqn:Ec; cbn [negb andb orb]; [left; eauto|].
  destruct (_norm n =? "") eqn:En; cbn [negb andb orb]; [left; eauto|].
  destruct (_norm p =? "") eqn:Ep; cbn [negb andb orb]; [left; eauto|].
  destruct (mem (_norm c) (customers s)) eqn:Em; [left; eauto|].
  destruct (existing_conflict _ _ _) eqn:Ex; [left; eauto|].
  right. repeat split; auto using eqb_false_neq. apply mem_false, Em.
Qed.

Lemma remove_customer_cases (s : HotelManagement) (a : value) :
  (exists m, remove_customer s a = ((false, m), s)) \/
  (exists k c,
      a = Some k /\ get k (customers s) = Some c /\ has_booking s k = false /\
      remove_customer s a =
        ((true, Text "Customer removed"),
         with_customers s (del k (customers s)))).
Proof.
  unfold remove_customer. destruct a as [k|]; cbn [get_value]; [|left; eauto].
  destruct (get k (customers s)) as [c|] eqn:E; [|left; eauto].
  destruct (has_booking s k) eqn:Eb; [left; eauto|].
  right. exists k, c. auto.
Qed.

Lemma book_room_cases (s : HotelManagement) (c n : value) :
  (exists m, book_room s c n = ((false, m), s)) \/
  (exists r,
      get (_norm c) (customers s) <> None /\
      get (_norm n) (rooms s) = Some r /\ Room.is_occupied r = false /\
      has_booking s (_norm c) = false /\
      book_room s c n =
        ((true, Text ("Room " ++ _norm n ++ " booked")),
         mkHotel
           (set (_norm n) (Room.set_is_occupied true r) (rooms s))
           (customers s)
           (set ("B" ++ str_nat (length (bookings s) + 1))
                (Booking.Build (_norm c) (_norm n)) (bookings s)))).
Proof.
  unfold book_room.
  destruct (mem (_norm c) (customers s)) eqn:Em; [|left; eauto].
  destruct (get (_norm n) (rooms s)) as [r|] eqn:E; [|left; eauto].
  destruct (Room.is_occupied r) eqn:Eo; [left; eauto|].
  destruct (has_booking s (_norm c)) eqn:Eb; [left; eauto|].
  right. exists r. repeat split; auto. apply mem_true, Em.
Qed.

Lemma checkout_cases (s : HotelManagement) (a : value) :
  (exists m, checkout s a = ((false, m), s)) \/
  (exists k r,
      a = Some k /\ get k (rooms s) = Some r /\ Room.is_occupied r = true /\
      checkout s a =
        ((true, Text ("Room " ++ k ++ " checked out")),
         mkHotel
           (set k (Room.set_is_occupied false r) (rooms s))
           (customers s)
           (delete_first_booking (bookings s) k (bookings s)))).
Proof.
  unfold checkout. destruct a as [k|]; cbn [get_value]; [|left; eauto].
  destruct (get k (rooms s)) as [r|] eqn:E; [|left; eauto].
  destruct (Room.is_occupied r) eqn:Eo; cbn [negb andb orb]; [|left; eauto].
  right. exists k, r. auto.
Qed.

(** ** The loops of the operations *)

Lemma has_booking_false (s : HotelManagement) (c : string) :
  has_booking s c = false <-> ~ In c (map booking_customer (bookings s)).
Proof.
  unfold has_booking, values, booking_customer.
  induction (bookings s) as [|[k b] l IH]; simpl; [tauto|].
  destruct (Booking.customer_id b =? c) eqn:E; simpl.
  - apply String.eqb_eq in E. split; [discriminate | tauto].
  - apply String.eqb_neq in E. rewrite IH. tauto.
Qed.

Lemma existing_conflict_None (l : list Customer.t) (name phone : string) :
  existing_conflict l name phone = None <->
  forall c, In c l -> _norm (Some (Customer.phone c)) <> phone.
Proof.
  induction l as [|e l IH]; cbn [existing_conflict In]; [tauto|].
  destruct (_norm (Some (Customer.phone e)) =? phone) eqn:E.
  - apply String.eqb_eq in E. split; [discriminate|].
    intros H. exfalso. apply (H e); auto.
  - rewrite andb_false_r. apply String.eqb_neq in E. rewrite IH. split.
    + intros H c [<-|Hc]; auto.
    + intros H c Hc. apply H. auto.
Qed.

Lemma existing_conflict_phones (d : dict Customer.t) (name phone : string) :
  existing_conflict (values d) name phone = None <->
  ~ In phone (map normal_phone d).
Proof.
  rewrite existing_conflict_None. unfold values, normal_phone. split.
  - intros H Hin. apply in_map_iff in Hin. destruct Hin as [e [He Hd]].
    apply (H (snd e)); [apply in_map, Hd | exact He].
  - intros H c Hc Heq. apply in_map_iff in Hc. destruct Hc as [e [He Hd]].
    apply H. apply in_map_iff. exists e. subst c. auto.
Qed.

(** The loop of [checkout] leaves the bookings alone when none is of the
    room, and deletes the key of the first one otherwise. *)
Lemma delete_first_booking_cases
    (items : list (string * Booking.t)) (k : string) (b : dict Booking.t) :
  (delete_first_booking items k b = b /\ ~ In k (map booking_room items)) \/
  (exists bid bk,
      In (bid, bk) items /\ Booking.room_number bk = k /\
      delete_first_booking items k b = del bid b).
Proof.
  induction items as [|[bid bk] items IH]; simpl; [left; tauto|].
  destruct (Booking.room_number bk =? k) eqn:E.
  - apply String.eqb_eq in E. right. exists bid, bk. auto.
  - apply String.eqb_neq in E.
    destruct IH as [[H1 H2]|[bid' [bk' [H1 [H2 H3]]]]].
    + left. split; [exact H1|]. unfold booking_room at 1. simpl. tauto.
    + right. exists bid', bk'. auto.
Qed.

(** ** The invariant holds in every reachable store *)

Lemma Inv_empty : Inv empty_store.
Proof.
  constructor; simpl; try constructor. unfold max_rooms. lia.
Qed.

Lemma Inv_add_room (s : HotelManagement) (a t : value) (p : option float) :
  Inv s -> Inv (snd (add_room s a t p)).
Proof.
  intros I.
  destruct (add_room_cases s a t p)
    as [[m ->]|[x [n (_ & _ & _ & _ & _ & _ & Hg & Hl & ->)]]]; [exact I|].
  destruct I. constructor; store_simpl; auto.
  - apply NoDup_keys_set; assumption.
  - apply Forall_set; [assumption|]. apply norm_idem.
  - eapply Forall_impl; [|eassumption].
    intros e [Hc [r [Hr Ho]]]. split; [exact Hc|]. exists r. split; [|exact Ho].
    store_simpl. rewrite get_set_other; [exact Hr|]. congruence.
  - pose proof (length_set (_norm a) (Room.Build (_norm t) x false) (rooms s)).
    lia.
Qed.

Lemma Inv_remove_room (s : HotelManagement) (a : value) :
  Inv s -> Inv (snd (remove_room s a)).
Proof.
  intros I.
  destruct (remove_room_cases s a)
    as [[m ->]|[k [r (_ & Hg & Ho & ->)]]]; [exact I|].
  destruct I. constructor; store_simpl; auto.
  - apply NoDup_map_del; assumption.
  - apply Forall_del; assumption.
  - eapply Forall_impl; [|eassumption].
    intros e [Hc [r' [Hr Ho']]]. split; [exact Hc|]. exists r'.
    split; [|exact Ho']. store_simpl. rewrite get_del_other; [exact Hr|].
    congruence.
  - pose proof (length_del k (rooms s)). lia.
Qed.

Lemma Inv_add_customer (s : HotelManagement) (c n p : value) :
  Inv s -> Inv (snd (add_customer s c n p)).
Proof.
  intros I.
  destruct (add_customer_cases s c n p)
    as [[m ->]|(_ & _ & _ & Hg & Hx & ->)]; [exact I|].
  destruct I. constructor; store_simpl; auto.
  - apply NoDup_keys_set; assumption.
  - apply Forall_set; [assumption|]. apply norm_idem.
  - eapply Forall_impl; [|eassumption].
    intros e [Hc Hr]. split; [|exact Hr]. store_simpl.
    destruct (String.eqb_spec (Booking.customer_id (snd e)) (_norm c))
      as [->|N].
    + rewrite get_set_same. discriminate.
    + rewrite get_set_other; assumption.
  - apply NoDup_map_set; [reflexivity | assumption |].
    unfold normal_phone at 1. cbn [snd Customer.phone]. rewrite norm_idem.
    apply existing_conflict_phones with (name := _norm n), Hx.
Qed.

Lemma Inv_remove_customer (s : HotelManagement) (a : value) :
  Inv s -> Inv (snd (remove_customer s a)).
Proof.
  intros I.
  destruct (remove_customer_cases s a)
    as [[m ->]|[k [c (_ & Hg & Hb & ->)]]]; [exact I|].
  apply has_booking_false in Hb.
  destruct I. constructor; store_simpl; auto.
  - apply NoDup_map_del; assumption.
  - apply Forall_del; assumption.
  - apply Forall_forall. intros e He.
    rewrite Forall_forall in inv_booked0.
    destruct (inv_booked0 e He) as [Hc Hr].
    split; [|exact Hr]. store_simpl. rewrite get_del_other; [exact Hc|].
    intros E. apply Hb. rewrite <- E. apply (in_map booking_customer), He.
  - apply NoDup_map_del; assumption.
Qed.

(** A room that is not marked occupied has no booking. *)
Lemma free_room_not_booked (s : HotelManagement) (k : string) (r : Room.t) :
  Forall (booked_ok s) (bookings s) ->
  get k (rooms s) = Some r -> Room.is_occupied r = false ->
  ~ In k (map booking_room (bookings s)).
Proof.
  intros Hb Hg Ho Hin. apply in_map_iff in Hin. destruct Hin as [e [He Hd]].
  rewrite Forall_forall in Hb. destruct (Hb e Hd) as [_ [r' [Hr Ho']]].
  unfold booking_room in He. rewrite He in Hr. congruence.
Qed.

Lemma Inv_book_room (s : HotelManagement) (c n : value) :
  Inv s -> Inv (snd (book_room s c n)).
Proof.
  intros I.
  destruct (book_room_cases s c n)
    as [[m ->]|[r (Hc & Hg & Ho & Hb & ->)]]; [exact I|].
  apply has_booking_false in Hb.
  pose proof (free_room_not_booked s _ r (inv_booked s I) Hg Ho) as Hfree.
  destruct I. constructor; store_simpl; auto.
  - apply NoDup_keys_set; assumption.
  - apply NoDup_keys_set; assumption.
  - apply Forall_set; [assumption|]. apply norm_idem.
  - apply Forall_set.
    + eapply Forall_impl; [|eassumption].
      intros e [Hc' [r' [Hr Ho']]]. split; [exact Hc'|]. store_simpl.
      destruct (String.eqb_spec (Booking.room_number (snd e)) (_norm n))
        as [->|N].
      * rewrite get_set_same. eexists. split; reflexivity.
      * rewrite get_set_other by assumption. eauto.
    + split; store_simpl; [exact Hc|]. cbn [Booking.room_number].
      rewrite get_set_same. eexists. split; reflexivity.
  - apply NoDup_map_set; [reflexivity | assumption | exact Hb].
  - apply NoDup_map_set; [reflexivity | assumption | exact Hfree].
  - rewrite length_set_mem; [assumption | congruence].
Qed.

Lemma Inv_checkout (s : HotelManagement) (a : value) :
  Inv s -> Inv (snd (checkout s a)).
Proof.
  intros I.
  destruct (checkout_cases s a)
    as [[m ->]|[k [r (_ & Hg & Ho & ->)]]]; [exact I|].
  assert (Hrest : forall e,
             In e (delete_first_booking (bookings s) k (bookings s)) ->
             In e (bookings s) /\ booking_room e <> k).
  { intros e He.
    destruct (delete_first_booking_cases (bookings s) k (bookings s))
      as [[H1 H2]|[bid [bk [H1 [H2 H3]]]]].
    - rewrite H1 in He. split; [exact He|].
      intros E. apply H2. rewrite <- E. apply in_map, He.
    - rewrite H3 in He. apply In_del in He. destruct He as [He Hk].
      split; [exact He|]. intros E. apply Hk.
      assert (e = (bid, bk)) as ->; [|reflexivity].
      apply (NoDup_map_inj booking_room (bookings s)); auto.
      + apply (inv_one_per_room s I).
      + rewrite E. symmetry. exact H2. }
  assert (Hdel : forall (A : Type) (f : string * Booking.t -> A),
             NoDup (map f (bookings s)) ->
             NoDup (map f (delete_first_booking (bookings s) k (bookings s)))).
  { intros A f H.
    destruct (delete_first_booking_cases (bookings s) k (bookings s))
      as [[H1 _]|[bid [bk [_ [_ H3]]]]].
    - rewrite H1. exact H.
    - rewrite H3. apply NoDup_map_del, H. }
  destruct I. constructor; store_simpl; auto.
  - apply NoDup_keys_set; assumption.
  - apply Hdel; assumption.
  - apply Forall_set; [assumption|].
    rewrite Forall_forall in inv_rooms_normal0.
    apply (inv_rooms_normal0 (k, r)), get_In, Hg.
  - apply Forall_forall. intros e He. destruct (Hrest e He) as [Hd Hk].
    rewrite Forall_forall in inv_booked0.
    destruct (inv_booked0 e Hd) as [Hc [r' [Hr Ho']]].
    split; [exact Hc|]. store_simpl. exists r'. split; [|exact Ho'].
    rewrite get_set_other; assumption.
  - rewrite length_set_mem; [assumption | congruence].
Qed.

Lemma Inv_handle (s : HotelManagement) (rq : request) :
  Inv s -> Inv (snd (handle s rq)).
Proof.
  destruct rq; simpl;
    auto using Inv_add_room, Inv_remove_room, Inv_add_customer,
      Inv_remove_customer, Inv_book_room, Inv_checkout.
Qed.

Lemma reachable_Inv (s : HotelManagement) : reachable s -> Inv s.
Proof.
  induction 1 as [|s rq _ IH]; [apply Inv_empty | apply Inv_handle, IH].
Qed.

Lemma reachable_run (s : HotelManagement) (rqs : list request) :
  reachable s -> reachable (run s rqs).
Proof.
  revert s. induction rqs as [|rq rqs IH]; intros s H; [exact H|].
  apply IH. constructor. exact H.
Qed.

(** ** Bookings in the reachable stores *)

(** X5: In a reachable store a customer has at most one booking, a room has
    at most one booking, and every booked room is marked occupied. *)
Lemma reachable_bookings (s : HotelManagement) :
  reachable s ->
  (forall e1 e2, In e1 (bookings s) -> In e2 (bookings s) ->
                 booking_customer e1 = booking_customer e2 -> e1 = e2) /\
  (forall e1 e2, In e1 (bookings s) -> In e2 (bookings s) ->
                 booking_room e1 = booking_room e2 -> e1 = e2) /\
  (forall e, In e (bookings s) ->
             exists r, get (booking_room e) (rooms s) = Some r
                       /\ Room.is_occupied r = true).
Proof.
  intros H. apply reachable_Inv in H. destruct H. repeat split.
  - intros e1 e2. apply NoDup_map_inj. assumption.
  - intros e1 e2. apply NoDup_map_inj. assumption.
  - intros e He. rewrite Forall_forall in inv_booked0.
    apply (inv_booked0 e He).
Qed.

(** C1: in a store reached from the empty one, an occupied room need not
    have a booking. After two bookings, the checkout of the first and a
    third booking, the third booking has taken the identifier [B2] of the
    second: room 1002 is still marked occupied and no booking is left
    for it. *)
Theorem occupied_room_without_booking :
  reachable collision_store /\
  (exists r, get "1002" (rooms collision_store) = Some r
             /\ Room.is_occupied r = true) /\
  ~ In "1002" (map booking_room (bookings collision_store)) /\
  bookings collision_store = [("B2", Booking.Build "C3" "1003")].
Proof.
  split; [apply reachable_run, reach_empty|].
  split; [eexists; split; vm_compute; reflexivity|].
  split; [|vm_compute; reflexivity].
  vm_compute. intros [H|[]]. discriminate H.
Qed.

(** C2: [book_room] succeeds exactly when, after normalisation, the
    customer exists, the room exists and is not occupied, and no booking
    is of that customer. On success the booking of key ["B"] followed by
    the number of bookings plus one is the new one, every other key of
    the bookings is as before, the room is marked occupied and nothing
    else changes. With an unknown customer the answer is
    [(false, "Invalid customer or room")]. *)
Theorem book_room_spec (s : HotelManagement) (c n : value) :
  let customer_id := _norm c in
  let room_number := _norm n in
  let booking_id := "B" ++ str_nat (length (bookings s) + 1) in
  let res := book_room s c n in
  (fst (fst res) = true <->
   get customer_id (customers s) <> None /\
   (exists r, get room_number (rooms s) = Some r
              /\ Room.is_occupied r = false) /\
   (forall bid b, In (bid, b) (bookings s) ->
                  Booking.customer_id b <> customer_id)) /\
  (fst (fst res) = true ->
   fst res = (true, Text ("Room " ++ room_number ++ " booked")) /\
   get booking_id (bookings (snd res))
     = Some (Booking.Build customer_id room_number) /\
   (forall k, k <> booking_id ->
              get k (bookings (snd res)) = get k (bookings s)) /\
   length (bookings (snd res)) <= length (bookings s) + 1 /\
   (exists r, get room_number (rooms s) = Some r /\
              get room_number (rooms (snd res))
                = Some (Room.Build (Room.room_type r) (Room.price r) true)) /\
   (forall k, k <> room_number ->
              get k (rooms (snd res)) = get k (rooms s)) /\
   customers (snd res) = customers s) /\
  (get customer_id (customers s) = None ->
   res = ((false, Text "Invalid customer or room"), s)).
Proof.
  intros customer_id room_number booking_id res.
  assert (Hno : has_booking s customer_id = false <->
                forall bid b, In (bid, b) (bookings s) ->
                              Booking.customer_id b <> customer_id).
  { rewrite has_booking_false. split.
    - intros H bid b Hin E. apply H. rewrite <- E.
      apply (in_map booking_customer _ _ Hin).
    - intros H Hin. apply in_map_iff in Hin. destruct Hin as [[bid b] [E Hin]].
      exact (H bid b Hin E). }
  split; [|split].
  - subst res. unfold book_room. fold customer_id room_number.
    destruct (mem customer_id (customers s)) eqn:Em.
    + apply mem_true in Em.
      destruct (get room_number (rooms s)) as [r|] eqn:Eg.
      * destruct (Room.is_occupied r) eqn:Eo.
        -- split; [discriminate|]. intros (_ & [r' [Hr Ho]] & _). congruence.
        -- destruct (has_booking s customer_id) eqn:Eb.
           ++ split; [discriminate|]. intros (_ & _ & H).
              apply Hno in H. congruence.
           ++ split; [|reflexivity]. intros _. repeat split; eauto.
              apply Hno. reflexivity.
      * split; [discriminate|]. intros (_ & [r' [Hr _]] & _). discriminate.
    + apply mem_false in Em. split; [discriminate|]. tauto.
  - subst res.
    destruct (book_room_cases s c n)
      as [[m ->]|[r (Hc & Hg & Ho & Hb & ->)]]; [discriminate|].
    intros _. store_simpl. fold customer_id room_number booking_id.
    repeat split.
    + apply get_set_same.
    + intros k Hk. apply get_set_other, Hk.
    + pose proof (length_set booking_id
                    (Booking.Build customer_id room_number) (bookings s)).
      lia.
    + exists r. split; [exact Hg|]. apply get_set_same.
    + intros k Hk. apply get_set_other, Hk.
  - intros H. subst res. unfold book_room. fold customer_id.
    apply mem_false in H. rewrite H. reflexivity.
Qed.

(** The example of the specification: the customer is unknown. *)
Lemma book_room_unknown_customer :
  book_room empty_store (Some "C1") (Some "1005")
  = ((false, Text "Invalid customer or room"), empty_store).
Proof.
  apply (proj2 (proj2 (book_room_spec empty_store (Some "C1") (Some "1005")))).
  reflexivity.
Defined.

(** ** Rooms *)

Lemma add_room_at_capacity (s : HotelManagement) (a t : value)
    (p : option float) :
  max_rooms <= length (rooms s) -> fst (fst (add_room s a t p)) = false.
Proof.
  intros H.
  destruct (add_room_cases s a t p)
    as [[m ->]|[x [n (_ & _ & _ & _ & _ & _ & _ & Hl & _)]]]; [reflexivity|].
  lia.
Qed.

(** C3: a store reached from the empty one holds at most 20 rooms; and in
    any store of exactly 20 rooms [add_room] fails, whatever it is
    given. *)
Theorem rooms_capacity :
  (forall s, reachable s -> length (rooms s) <= 20) /\
  (forall s a t p,
      length (rooms s) = 20 -> fst (fst (add_room s a t p)) = false).
Proof.
  split.
  - intros s H. apply (inv_capacity s (reachable_Inv s H)).
  - intros s a t p H. apply add_room_at_capacity. unfold max_rooms. lia.
Qed.

(** The twenty rooms 1001..1020 can be added, and a room more cannot. *)
Lemma rooms_capacity_witness :
  length (rooms full_store) <= 20 /\
  fst (fst (add_room full_store (Some "1001") (Some "Suite")
              (Some 200%float))) = false.
Proof.
  split.
  - apply (proj1 rooms_capacity). apply reachable_run, reach_empty.
  - apply (proj2 rooms_capacity). vm_compute. reflexivity.
Defined.

Lemma int_empty : int "" = None.
Proof. reflexivity. Qed.

(** Integer literals as [int] reads them: a sign, leading zeros and
    single underscores between digits are accepted. *)
Lemma int_examples :
  int "1005" = Some 1005%Z /\ int "+01_005" = Some 1005%Z /\
  int "-1005" = Some (-1005)%Z /\ int "1005_" = None /\
  int "1__005" = None /\ int "10 05" = None /\ int "1005.0" = None.
Proof. repeat split. Qed.

(** C4: [add_room] fails and leaves the store as it is when the room
    number, as the operation reads it (normalised), is not an integer of
    1001..1020. With a room type, a price that is not [<= 0] and a number
    of that range: a number already there is refused with
    ["Room <number> already exists"], and a number not yet there, below
    capacity, is accepted with ["Room <number> added successfully"] and
    stored with its type, its price and [is_occupied = false]. The
    example of the specification is the last part. *)
Theorem add_room_spec :
  (forall s a t p,
      (forall n, int (_norm a) = Some n -> ~ (1001 <= n <= 1020)%Z) ->
      fst (fst (add_room s a t p)) = false /\ snd (add_room s a t p) = s) /\
  (forall s a t x n,
      _norm t <> "" -> PrimFloat.leb x 0%float = false ->
      int (_norm a) = Some n -> (1001 <= n <= 1020)%Z ->
      (get (_norm a) (rooms s) <> None ->
       add_room s a t (Some x)
       = ((false, Text ("Room " ++ _norm a ++ " already exists")), s)) /\
      (get (_norm a) (rooms s) = None -> length (rooms s) < max_rooms ->
       fst (add_room s a t (Some x))
       = (true, Text ("Room " ++ _norm a ++ " added successfully")) /\
       get (_norm a) (rooms (snd (add_room s a t (Some x))))
       = Some (Room.Build (_norm t) x false) /\
       (forall k, k <> _norm a ->
                  get k (rooms (snd (add_room s a t (Some x))))
                  = get k (rooms s)) /\
       customers (snd (add_room s a t (Some x))) = customers s /\
       bookings (snd (add_room s a t (Some x))) = bookings s)) /\
  (let s1 := mkHotel [("1005", Room.Build "Deluxe" 150%float false)] [] [] in
   add_room empty_store (Some "1005") (Some "Deluxe") (Some 150%float)
   = ((true, Text "Room 1005 added successfully"), s1) /\
   add_room s1 (Some "1005") (Some "Suite") (Some 200%float)
   = ((false, Text "Room 1005 already exists"), s1)).
Proof.
  split; [|split].
  - intros s a t p H.
    destruct (add_room_cases s a t p)
      as [[m ->]|[x [n (_ & _ & _ & _ & Hn & Hr & _)]]]; [auto|].
    exfalso. exact (H n Hn Hr).
  - intros s a t x n Ht Hx Hn [H1 H2].
    assert (Ea : (_norm a =? "") = false).
    { apply String.eqb_neq. intros E. rewrite E, int_empty in Hn.
      discriminate. }
    apply String.eqb_neq in Ht. apply Z.leb_le in H1, H2.
    assert (E : add_room s a t (Some x) =
                if mem (_norm a) (rooms s)
                then ((false, Text ("Room " ++ _norm a ++ " already exists")),
                      s)
                else if (max_rooms <=? length (rooms s))%nat
                then ((false,
                       Text ("Cannot add more rooms. Capacity "
                             ++ str_nat max_rooms ++ " reached")), s)
                else ((true,
                       Text ("Room " ++ _norm a ++ " added successfully")),
                      with_rooms s
                        (set (_norm a) (Room.Build (_norm t) x false)
                             (rooms s)))).
    { unfold add_room. rewrite Ea, Ht, Hx, Hn, H1, H2. reflexivity. }
    rewrite E. split.
    + intros Hm. apply mem_true in Hm. rewrite Hm. reflexivity.
    + intros Hm Hl. apply mem_false in Hm. apply Nat.leb_gt in Hl.
      rewrite Hm, Hl. store_simpl. repeat split.
      * apply get_set_same.
      * intros k Hk. apply get_set_other, Hk.
  - split; reflexivity.
Qed.

(** The part on valid additions, at room 1007 in a store that holds room
    1005. *)
Lemma add_room_spec_witness :
  let s := snd (add_room empty_store (Some "1005") (Some "Deluxe")
                  (Some 150%float)) in
  fst (add_room s (Some " 1007 ") (Some "Suite") (Some 200%float))
  = (true, Text "Room 1007 added successfully") /\
  fst (fst (add_room s (Some "2007") (Some "Suite") (Some 200%float))) = false.
Proof.
  split.
  - refine (proj1 (proj2 (proj1 (proj2 add_room_spec)
             (snd (add_room empty_store (Some "1005") (Some "Deluxe")
                     (Some 150%float)))
             (Some " 1007 ") (Some "Suite") 200%float 1007%Z
             _ _ _ _) _ _)).
    + discriminate.
    + reflexivity.
    + reflexivity.
    + lia.
    + reflexivity.
    + vm_compute. lia.
  - refine (proj1 (proj1 add_room_spec _ (Some "2007") _ _ _)).
    intros n H. vm_compute in H. injection H as <-. lia.
Defined.

(** ** Customers *)

Lemma add_customer_known_phone (s : HotelManagement) (c n p : value)
    (k : string) (e : Customer.t) :
  get k (customers s) = Some e ->
  _norm (Some (Customer.phone e)) = _norm p ->
  fst (fst (add_customer s c n p)) = false /\ snd (add_customer s c n p) = s.
Proof.
  intros Hg Hp.
  destruct (add_customer_cases s c n p)
    as [[m ->]|(_ & _ & _ & _ & Hx & _)]; [auto|].
  exfalso. rewrite existing_conflict_None in Hx. apply (Hx e); [|exact Hp].
  unfold values. apply (in_map snd _ _ (get_In _ _ _ Hg)).
Qed.

Lemma handle_customer_kept (s : HotelManagement) (rq : request)
    (k : string) (e : Customer.t) :
  get k (customers s) = Some e ->
  get k (customers (snd (handle s rq))) = Some e \/
  get k (customers (snd (handle s rq))) = None.
Proof.
  intros Hg. destruct rq as [a t p|a|c n p|a|c n|a]; cbn [handle].
  - destruct (add_room_cases s a t p)
      as [[m ->]|[x [n (_ & _ & _ & _ & _ & _ & _ & _ & ->)]]]; auto.
  - destruct (remove_room_cases s a)
      as [[m ->]|[k' [r (_ & _ & _ & ->)]]]; auto.
  - destruct (add_customer_cases s c n p)
      as [[m ->]|(_ & _ & _ & Hn & _ & ->)]; [auto|].
    left. store_simpl. rewrite get_set_other; [exact Hg | congruence].
  - destruct (remove_customer_cases s a)
      as [[m ->]|[k' [c (_ & _ & _ & ->)]]]; [auto|].
    store_simpl. destruct (String.eqb_spec k k') as [->|N].
    + right. apply get_del_same.
    + left. rewrite get_del_other; assumption.
  - destruct (book_room_cases s c n)
      as [[m ->]|[r (_ & _ & _ & _ & ->)]]; auto.
  - destruct (checkout_cases s a)
      as [[m ->]|[k' [r (_ & _ & _ & ->)]]]; auto.
Qed.

(** C5: in a store reached from the empty one, two customers of
    different identifiers have different phone numbers, normalised or
    not. [add_customer] refuses a customer whose phone, normalised, is
    the normalised phone of a customer of the store, and so one whose
    name and phone both are; and whatever the operation, a customer of
    the store is afterwards the same record or is gone. *)
Theorem unique_phones :
  (forall s, reachable s ->
     forall k1 k2 c1 c2,
       k1 <> k2 ->
       get k1 (customers s) = Some c1 -> get k2 (customers s) = Some c2 ->
       _norm (Some (Customer.phone c1)) <> _norm (Some (Customer.phone c2))
       /\ Customer.phone c1 <> Customer.phone c2) /\
  (forall s c n p k e,
      get k (customers s) = Some e ->
      _norm (Some (Customer.phone e)) = _norm p ->
      fst (fst (add_customer s c n p)) = false
      /\ snd (add_customer s c n p) = s) /\
  (forall s c n p k e,
      get k (customers s) = Some e ->
      _norm (Some (Customer.name e)) = _norm n ->
      _norm (Some (Customer.phone e)) = _norm p ->
      fst (fst (add_customer s c n p)) = false
      /\ snd (add_customer s c n p) = s) /\
  (forall s rq k e,
      get k (customers s) = Some e ->
      get k (customers (snd (handle s rq))) = Some e \/
      get k (customers (snd (handle s rq))) = None).
Proof.
  split; [|split; [|split]].
  - intros s H k1 k2 c1 c2 N H1 H2.
    assert (Hn : _norm (Some (Customer.phone c1))
                 <> _norm (Some (Customer.phone c2))).
    { intros E. apply N.
      apply get_In in H1, H2.
      assert (E' : (k1, c1) = (k2, c2)).
      { apply (NoDup_map_inj normal_phone (customers s)); auto.
        apply (inv_phones s (reachable_Inv s H)). }
      congruence. }
    split; [exact Hn|]. congruence.
  - intros s c n p k e. apply add_customer_known_phone.
  - intros s c n p k e Hg _. revert Hg. apply add_customer_known_phone.
  - intros s rq k e. apply handle_customer_kept.
Qed.

(** With Ann in the store under phone 111, Bob cannot be added with
    that phone. *)
Lemma unique_phones_witness :
  fst (fst (add_customer idle_store (Some "C2") (Some "Bob") (Some " 111")))
  = false.
Proof.
  refine (proj1 (proj1 (proj2 unique_phones) idle_store (Some "C2")
                   (Some "Bob") (Some " 111") "C1"
                   (Customer.Build "Ann" "111") _ _)); reflexivity.
Defined.

(** ** Checkout *)

Lemma checkout_occupied (s : HotelManagement) (k : string) (r : Room.t) :
  get k (rooms s) = Some r -> Room.is_occupied r = true ->
  checkout s (Some k)
  = ((true, Text ("Room " ++ k ++ " checked out")),
     mkHotel (set k (Room.set_is_occupied false r) (rooms s))
       (customers s)
       (delete_first_booking (bookings s) k (bookings s))).
Proof.
  intros Hg Ho. unfold checkout. cbn [get_value]. rewrite Hg, Ho.
  reflexivity.
Qed.

(** In a reachable store the checkout of a booked room deletes the
    booking of the room. *)
Lemma checkout_deletes (s : HotelManagement) (bid : string) (b : Booking.t) :
  Inv s -> In (bid, b) (bookings s) ->
  delete_first_booking (bookings s) (Booking.room_number b) (bookings s)
  = del bid (bookings s).
Proof.
  intros I Hin.
  destruct (delete_first_booking_cases (bookings s) (Booking.room_number b)
              (bookings s)) as [[_ H]|[bid' [b' (H1 & H2 & ->)]]].
  - exfalso. apply H. apply (in_map booking_room _ _ Hin).
  - assert (E : (bid', b') = (bid, b)).
    { apply (NoDup_map_inj booking_room (bookings s)); auto.
      apply (inv_one_per_room s I). }
    congruence.
Qed.

(** C6: in a store reached from the empty one, where room [R] is
    occupied and its booking is of customer [C], [checkout(R)] succeeds,
    [book_room(C, R)] then succeeds, and [R] is occupied again. *)
Theorem checkout_then_book (s : HotelManagement) (R C bid : string)
    (r : Room.t) (b : Booking.t) :
  reachable s ->
  get R (rooms s) = Some r -> Room.is_occupied r = true ->
  In (bid, b) (bookings s) ->
  Booking.room_number b = R -> Booking.customer_id b = C ->
  let out := checkout s (Some R) in
  let back := book_room (snd out) (Some C) (Some R) in
  fst (fst out) = true /\ fst (fst back) = true /\
  exists r', get R (rooms (snd back)) = Some r'
             /\ Room.is_occupied r' = true.
Proof.
  intros H Hg Ho Hin HR HC out back. apply reachable_Inv in H.
  assert (Hdel := checkout_deletes s bid b H Hin). rewrite HR in Hdel.
  assert (Hbooked : booked_ok s (bid, b)).
  { pose proof (inv_booked s H) as F. rewrite Forall_forall in F.
    exact (F _ Hin). }
  destruct Hbooked as [Hc _]. cbn [snd] in Hc. rewrite HC in Hc.
  assert (NC : _norm (Some C) = C).
  { destruct (get C (customers s)) as [e|] eqn:E; [|congruence].
    pose proof (inv_customers_normal s H) as F. rewrite Forall_forall in F.
    exact (F _ (get_In _ _ _ E)). }
  assert (NR : _norm (Some R) = R).
  { pose proof (inv_rooms_normal s H) as F. rewrite Forall_forall in F.
    exact (F _ (get_In _ _ _ Hg)). }
  subst out back. rewrite (checkout_occupied s R r Hg Ho). cbn [fst snd].
  split; [reflexivity|]. rewrite Hdel.
  set (s1 := mkHotel _ _ _).
  assert (Hb : has_booking s1 C = false).
  { apply has_booking_false. subst s1. store_simpl. intros Hi.
    apply in_map_iff in Hi. destruct Hi as [e [He Hd]].
    apply In_del in Hd. destruct Hd as [Hd Hk]. apply Hk.
    assert (e = (bid, b)) as ->; [|reflexivity].
    apply (NoDup_map_inj booking_customer (bookings s)); auto.
    - apply (inv_one_per_customer s H).
    - rewrite He. symmetry. exact HC. }
  unfold book_room. rewrite NC, NR, Hb.
  assert (Hm : mem C (customers s1) = true) by (apply mem_true; exact Hc).
  assert (Hg1 : get R (rooms s1) = Some (Room.set_is_occupied false r))
    by (subst s1; store_simpl; apply get_set_same).
  rewrite Hm, Hg1. cbn [Room.is_occupied Room.set_is_occupied fst snd].
  split; [reflexivity|]. store_simpl. rewrite get_set_same.
  eexists. split; reflexivity.
Qed.

(** Ann has booked room 1005: she can check out and book it again. *)
Lemma checkout_then_book_witness :
  let out := checkout booked_store (Some "1005") in
  let back := book_room (snd out) (Some "C1") (Some "1005") in
  fst (fst out) = true /\ fst (fst back) = true /\
  exists r', get "1005" (rooms (snd back)) = Some r'
             /\ Room.is_occupied r' = true.
Proof.
  refine (checkout_then_book booked_store "1005" "C1" "B1"
            (Room.Build "Deluxe" 150%float true)
            (Booking.Build "C1" "1005") _ _ _ _ _ _).
  - apply reachable_run, reach_empty.
  - reflexivity.
  - reflexivity.
  - vm_compute. left. reflexivity.
  - reflexivity.
  - reflexivity.
Defined.

(** C9: when room [R] exists and is marked occupied but no booking is of
    [R], [checkout(R)] succeeds all the same, deletes no booking and
    marks [R] free; the rest of the store is as before. *)
Theorem checkout_without_booking (s : HotelManagement) (R : string)
    (r : Room.t) :
  get R (rooms s) = Some r -> Room.is_occupied r = true ->
  (forall bid b, In (bid, b) (bookings s) -> Booking.room_number b <> R) ->
  let out := checkout s (Some R) in
  fst out = (true, Text ("Room " ++ R ++ " checked out")) /\
  bookings (snd out) = bookings s /\
  get R (rooms (snd out))
  = Some (Room.Build (Room.room_type r) (Room.price r) false) /\
  (forall k, k <> R -> get k (rooms (snd out)) = get k (rooms s)) /\
  customers (snd out) = customers s.
Proof.
  intros Hg Ho Hno out. subst out.
  rewrite (checkout_occupied s R r Hg Ho). store_simpl.
  repeat split.
  - destruct (delete_first_booking_cases (bookings s) R (bookings s))
      as [[H _]|[bid [b (H1 & H2 & _)]]]; [exact H|].
    exfalso. exact (Hno bid b H1 H2).
  - apply get_set_same.
  - intros k Hk. apply get_set_other, Hk.
Qed.

(** Room 1002 of the store where a booking identifier was reused. *)
Lemma checkout_without_booking_witness :
  fst (checkout collision_store (Some "1002"))
  = (true, Text "Room 1002 checked out") /\
  bookings (snd (checkout collision_store (Some "1002")))
  = bookings collision_store.
Proof.
  refine ((fun H => conj (proj1 H) (proj1 (proj2 H)))
            (checkout_without_booking collision_store "1002"
               (Room.Build "Standard" 100%float true) _ _ _)).
  - reflexivity.
  - reflexivity.
  - vm_compute. intros bid b [H|[]]. injection H as <- <-. discriminate.
Defined.

(** ** Failures *)



(** ** Normalisation of the arguments *)

(** X2: [add_room], [add_customer] and [book_room] read their string
    arguments through [_norm]: arguments of the same normal form, such
    as a string and the same string stripped, or [None] and a string of
    blanks, give the same result. *)
Lemma normalising_operations (s : HotelManagement) :
  (forall a a' t t' p,
      _norm a = _norm a' -> _norm t = _norm t' ->
      add_room s a t p = add_room s a' t' p) /\
  (forall c c' n n' p p',
      _norm c = _norm c' -> _norm n = _norm n' -> _norm p = _norm p' ->
      add_customer s c n p = add_customer s c' n' p') /\
  (forall c c' n n',
      _norm c = _norm c' -> _norm n = _norm n' ->
      book_room s c n = book_room s c' n').
Proof.
  repeat split.
  - intros a a' t t' p Ha Ht. unfold add_room. rewrite Ha, Ht. reflexivity.
  - intros c c' n n' p p' Hc Hn Hp. unfold add_customer.
    rewrite Hc, Hn, Hp. reflexivity.
  - intros c c' n n' Hc Hn. unfold book_room. rewrite Hc, Hn. reflexivity.
Qed.

(** The same, for an argument and the argument stripped. *)
Lemma stripped_arguments (s : HotelManagement) (x y : string)
    (p : option float) :
  add_room s (Some (strip x)) (Some (strip y)) p
  = add_room s (Some x) (Some y) p /\
  book_room s (Some (strip x)) (Some (strip y))
  = book_room s (Some x) (Some y).
Proof.
  unfold add_room, book_room. rewrite !norm_strip. split; reflexivity.
Qed.

(** C8: [remove_room], [remove_customer] and [checkout] look their
    argument up as it is given. Room 1005 is removed, and checked out,
    under the name ["1005"], and is not found under that name with a
    blank around it; the same for the customer of the store. *)
Theorem removals_do_not_normalise :
  fst (remove_room idle_store (Some "1005"))
  = (true, Text "Room 1005 removed") /\
  remove_room idle_store (Some " 1005 ")
  = ((false, Text "Room not found"), idle_store) /\
  fst (remove_customer idle_store (Some "C1"))
  = (true, Text "Customer removed") /\
  remove_customer idle_store (Some "C1 ")
  = ((false, Text "Customer not found"), idle_store) /\
  fst (checkout booked_store (Some "1005"))
  = (true, Text "Room 1005 checked out") /\
  checkout booked_store (Some " 1005")
  = ((false, Text "Room not found"), booked_store).
Proof. repeat split. Qed.

(** ** Persistence *)

(** Saving and loading a store whose strings hold no line break, with a
    price that its text gives back. *)
Lemma save_load_booked_store :
  load_data (fun _ => Some 150%float) empty_store
    (save_data (fun _ => "150.0") booked_store)
  = Some booked_store.
Proof. vm_compute. reflexivity. Qed.

(** C7: saving and loading does not give every store back. [save_data]
    opens its files with [newline=''] and [load_data] does not: a
    carriage return inside a quoted field is written as it is and read
    as a line feed. The store with the one customer of name [a CR b],
    which [add_customer] accepts, is loaded with the name [a LF b],
    whatever the conversions of the prices are. *)
Theorem save_load_carriage_return
    (str_float : float -> string) (float_of_str : string -> option float) :
  reachable cr_store /\
  customers cr_store = [("C1", Customer.Build cr_name "555")] /\
  load_data float_of_str empty_store (save_data str_float cr_store)
  = Some (mkHotel [] [("C1", Customer.Build lf_name "555")] []) /\
  load_data float_of_str empty_store (save_data str_float cr_store)
  <> Some cr_store.
Proof.
  split; [apply reachable_run, reach_empty|].
  split; [reflexivity|].
  split; [vm_compute; reflexivity|].
  vm_compute. discriminate.
Qed.

(** * Further properties of the operations *)

(** ** Normalisation *)

Lemma lstrip_split (s : string) :
  exists l, s = l ++ lstrip s /\ all_space l = true.
Proof.
  induction s as [|c s [l [E H]]]; [exists ""; auto|].
  cbn [lstrip]. destruct (is_space c) eqn:Ec.
  - exists (String c l). cbn [append all_space]. rewrite Ec, H, <- E. auto.
  - exists "". auto.
Qed.

Lemma rstrip_split (s : string) :
  exists r, s = rstrip s ++ r /\ all_space r = true.
Proof.
  induction s as [|c s [r [E H]]]; [exists ""; auto|].
  cbn [rstrip]. destruct (rstrip s) as [|d t] eqn:Et.
  - cbn [append] in E. subst r. destruct (is_space c) eqn:Ec.
    + exists (String c s). cbn [append all_space]. rewrite Ec, H. auto.
    + exists s. auto.
  - exists r. cbn [append] in *. rewrite <- E. auto.
Qed.

Lemma rstrip_last (s : string) (c : ascii) :
  last_char (rstrip s) = Some c -> is_space c = false.
Proof.
  induction s as [|a s IH]; cbn [rstrip]; [discriminate|].
  destruct (rstrip s) as [|d t] eqn:Et.
  - destruct (is_space a) eqn:Ea; cbn [last_char]; [discriminate|].
    intros [= <-]. exact Ea.
  - intros H. apply IH. exact H.
Qed.


(** X1: What [_norm] returns: the argument without a run of whitespace at
    each end, a string that neither begins nor ends with whitespace, and
    that [_norm] leaves as it is. *)
Theorem norm_spec (s : string) :
  (exists l r, s = l ++ _norm (Some s) ++ r
               /\ all_space l = true /\ all_space r = true) /\
  head_ok (_norm (Some s)) /\
  (forall c, last_char (_norm (Some s)) = Some c -> is_space c = false) /\
  _norm (Some (_norm (Some s))) = _norm (Some s).
Proof.
  repeat split.
  - rewrite norm_Some. destruct (s =? "") eqn:E.
    + apply String.eqb_eq in E. subst s. exists "", "". auto.
    + unfold strip. destruct (lstrip_split s) as [l [El Hl]].
      destruct (rstrip_split (lstrip s)) as [r [Er Hr]].
      exists l, r. rewrite <- Er, <- El. auto.
  - rewrite norm_Some. destruct (s =? ""); [exact I|].
    apply rstrip_head_ok, lstrip_head_ok.
  - rewrite norm_Some. destruct (s =? ""); [discriminate|].
    apply rstrip_last.
  - apply norm_idem.
Qed.

(** ** What the stores hold *)

Lemma get_keys {V : Type} (k : string) (d : dict V) :
  get k d <> None -> In k (keys d).
Proof.
  destruct (get k d) as [v|] eqn:E; [|congruence]. intros _.
  apply get_In in E. apply (in_map fst _ _ E).
Qed.

Lemma reachable_rooms_ok (s : HotelManagement) :
  reachable s -> Forall room_ok (rooms s).
Proof.
  induction 1 as [|s rq _ IH]; [constructor|].
  assert (Hflag : forall k r b,
             get k (rooms s) = Some r ->
             Forall room_ok (set k (Room.set_is_occupied b r) (rooms s))).
  { intros k r b Hg. apply Forall_set; [exact IH|].
    rewrite Forall_forall in IH. apply (IH (k, r)), get_In, Hg. }
  destruct rq as [a t p|a|c n p|a|c n|a]; cbn [handle].
  - destruct (add_room_cases s a t p)
      as [[m ->]|[x [n (_ & Hx & Ha & Ht & Hn & Hr & _ & _ & ->)]]];
      [exact IH|].
    store_simpl. apply Forall_set; [exact IH|].
    unfold room_ok, normal. cbn [fst snd Room.room_type Room.price].
    rewrite !norm_idem. eauto 10.
  - destruct (remove_room_cases s a)
      as [[m ->]|[k [r (_ & _ & _ & ->)]]]; [exact IH|].
    store_simpl. apply Forall_del, IH.
  - destruct (add_customer_cases s c n p)
      as [[m ->]|(_ & _ & _ & _ & _ & ->)]; exact IH.
  - destruct (remove_customer_cases s a)
      as [[m ->]|[k [c (_ & _ & _ & ->)]]]; exact IH.
  - destruct (book_room_cases s c n)
      as [[m ->]|[r (_ & Hg & _ & _ & ->)]]; [exact IH|].
    store_simpl. apply Hflag, Hg.
  - destruct (checkout_cases s a)
      as [[m ->]|[k [r (_ & Hg & _ & ->)]]]; [exact IH|].
    store_simpl. apply Hflag, Hg.
Qed.

Lemma reachable_customers_ok (s : HotelManagement) :
  reachable s -> Forall customer_ok (customers s).
Proof.
  induction 1 as [|s rq _ IH]; [constructor|].
  destruct rq as [a t p|a|c n p|a|c n|a]; cbn [handle].
  - destruct (add_room_cases s a t p)
      as [[m ->]|[x [n (_ & _ & _ & _ & _ & _ & _ & _ & ->)]]]; exact IH.
  - destruct (remove_room_cases s a)
      as [[m ->]|[k [r (_ & _ & _ & ->)]]]; exact IH.
  - destruct (add_customer_cases s c n p)
      as [[m ->]|(Hc & Hn & Hp & _ & _ & ->)]; [exact IH|].
    store_simpl. apply Forall_set; [exact IH|].
    unfold customer_ok, normal.
    cbn [fst snd Customer.name Customer.phone].
    rewrite !norm_idem. auto 10.
  - destruct (remove_customer_cases s a)
      as [[m ->]|[k [c (_ & _ & _ & ->)]]]; [exact IH|].
    store_simpl. apply Forall_del, IH.
  - destruct (book_room_cases s c n)
      as [[m ->]|[r (_ & _ & _ & _ & ->)]]; exact IH.
  - destruct (checkout_cases s a)
      as [[m ->]|[k [r (_ & _ & _ & ->)]]]; exact IH.
Qed.

(** X3: Every room of a store reached from the empty one has a key that is a
    normalised integer literal of 1001..1020, a room type that is
    normalised and not empty, and a price that is not [<= 0]. *)
Theorem stored_rooms (s : HotelManagement) (k : string) (r : Room.t) :
  reachable s -> get k (rooms s) = Some r ->
  (exists n, int k = Some n /\ (1001 <= n <= 1020)%Z) /\
  k <> "" /\ _norm (Some k) = k /\
  Room.room_type r <> "" /\ _norm (Some (Room.room_type r)) = Room.room_type r /\
  PrimFloat.leb (Room.price r) 0%float = false.
Proof.
  intros H Hg. apply reachable_rooms_ok in H. rewrite Forall_forall in H.
  exact (H (k, r) (get_In _ _ _ Hg)).
Qed.

Lemma stored_rooms_witness :
  exists n, int "1005" = Some n /\ (1001 <= n <= 1020)%Z.
Proof.
  refine (proj1 (stored_rooms booked_store "1005"
                   (Room.Build "Deluxe" 150%float true) _ _)).
  - apply reachable_run, reach_empty.
  - reflexivity.
Defined.

(** X4: Every customer of a store reached from the empty one has an
    identifier, a name and a phone that are normalised and not empty. *)
Theorem stored_customers (s : HotelManagement) (k : string) (c : Customer.t) :
  reachable s -> get k (customers s) = Some c ->
  k <> "" /\ _norm (Some k) = k /\
  Customer.name c <> "" /\ _norm (Some (Customer.name c)) = Customer.name c /\
  Customer.phone c <> "" /\ _norm (Some (Customer.phone c)) = Customer.phone c.
Proof.
  intros H Hg. apply reachable_customers_ok in H. rewrite Forall_forall in H.
  exact (H (k, c) (get_In _ _ _ Hg)).
Qed.

Lemma stored_customers_witness : _norm (Some "Ann") = "Ann".
Proof.
  refine (proj1 (proj2 (proj2 (proj2 (stored_customers booked_store "C1"
                   (Customer.Build "Ann" "111") _ _))))).
  - apply reachable_run, reach_empty.
  - reflexivity.
Defined.

(** ** Bookings and what they refer to *)

(** X6: In a store reached from the empty one, every booking is of a
    customer of the store and of a room of the store that is marked
    occupied; neither can be removed: [remove_room] and
    [remove_customer] refuse and leave the store as it is. *)
Theorem booking_references (s : HotelManagement) (bid : string)
    (b : Booking.t) :
  reachable s -> In (bid, b) (bookings s) ->
  get (Booking.customer_id b) (customers s) <> None /\
  (exists r, get (Booking.room_number b) (rooms s) = Some r
             /\ Room.is_occupied r = true) /\
  remove_room s (Some (Booking.room_number b))
  = ((false, Text "Room is occupied"), s) /\
  remove_customer s (Some (Booking.customer_id b))
  = ((false, Text "Customer has active bookings"), s).
Proof.
  intros H Hin. apply reachable_Inv in H.
  pose proof (inv_booked s H) as F. rewrite Forall_forall in F.
  destruct (F _ Hin) as [Hc [r [Hr Ho]]]. cbn [snd] in Hc, Hr.
  split; [exact Hc|]. split; [eauto|]. split.
  - unfold remove_room. cbn [get_value]. rewrite Hr, Ho. reflexivity.
  - unfold remove_customer. cbn [get_value].
    destruct (get (Booking.customer_id b) (customers s)); [|congruence].
    destruct (has_booking s (Booking.customer_id b)) eqn:E; [reflexivity|].
    exfalso. apply has_booking_false in E. apply E.
    apply (in_map booking_customer _ _ Hin).
Qed.

Lemma booking_references_witness :
  remove_room booked_store (Some "1005")
  = ((false, Text "Room is occupied"), booked_store).
Proof.
  refine (proj1 (proj2 (proj2 (booking_references booked_store "B1"
                   (Booking.Build "C1" "1005") _ _)))).
  - apply reachable_run, reach_empty.
  - vm_compute. left. reflexivity.
Defined.

(** ** Operations that undo each other *)

Section DictUndo.
Context {V : Type}.
Implicit Types (d : dict V) (k : string) (v : V).

Lemma del_absent k d : get k d = None -> del k d = d.
Proof.
  induction d as [|[k0 v0] d IH]; cbn [get del]; [reflexivity|].
  destruct (k0 =? k); [discriminate|]. intros H. rewrite IH; auto.
Qed.

Lemma del_set_absent k v d : get k d = None -> del k (set k v d) = d.
Proof.
  induction d as [|[k0 v0] d IH]; cbn [get set del].
  - rewrite String.eqb_refl. reflexivity.
  - destruct (k0 =? k) eqn:E; [discriminate|]. intros H.
    cbn [del]. rewrite E, IH; auto.
Qed.

Lemma set_same k v d : get k d = Some v -> set k v d = d.
Proof.
  induction d as [|[k0 v0] d IH]; cbn [get set]; [discriminate|].
  destruct (k0 =? k); [intros [= ->]; reflexivity|].
  intros H. rewrite IH; auto.
Qed.

Lemma set_set k v v' d : set k v (set k v' d) = set k v d.
Proof.
  induction d as [|[k0 v0] d IH]; cbn [set].
  - rewrite String.eqb_refl. reflexivity.
  - destruct (k0 =? k) eqn:E; cbn [set]; rewrite E; [reflexivity|].
    rewrite IH. reflexivity.
Qed.



End DictUndo.

Lemma store_eta (s : HotelManagement) :
  mkHotel (rooms s) (customers s) (bookings s) = s.
Proof. destruct s. reflexivity. Qed.

(** X7: A room that has just been added can be removed, which gives the
    store of before back. *)
Theorem add_then_remove_room (s : HotelManagement) (a t : value)
    (p : option float) :
  fst (fst (add_room s a t p)) = true ->
  remove_room (snd (add_room s a t p)) (Some (_norm a))
  = ((true, Text ("Room " ++ _norm a ++ " removed")), s).
Proof.
  destruct (add_room_cases s a t p)
    as [[m ->]|[x [n (_ & _ & _ & _ & _ & _ & Hg & _ & ->)]]];
    [discriminate|].
  intros _. unfold remove_room. store_simpl. cbn [get_value].
  rewrite get_set_same. cbn [Room.is_occupied]. unfold with_rooms.
  store_simpl. rewrite del_set_absent by exact Hg.
  rewrite store_eta. reflexivity.
Qed.

Lemma add_then_remove_room_witness :
  remove_room
    (snd (add_room idle_store (Some " 1010") (Some "Suite") (Some 200%float)))
    (Some "1010")
  = ((true, Text "Room 1010 removed"), idle_store).
Proof.
  apply (add_then_remove_room idle_store (Some " 1010") (Some "Suite")
           (Some 200%float)).
  reflexivity.
Defined.

(** X8: In a store reached from the empty one, a customer who has just been
    added can be removed, which gives the store of before back. *)
Theorem add_then_remove_customer (s : HotelManagement) (c n p : value) :
  reachable s ->
  fst (fst (add_customer s c n p)) = true ->
  remove_customer (snd (add_customer s c n p)) (Some (_norm c))
  = ((true, Text "Customer removed"), s).
Proof.
  intros H. apply reachable_Inv in H.
  destruct (add_customer_cases s c n p)
    as [[m ->]|(_ & _ & _ & Hg & _ & ->)]; [discriminate|].
  intros _. unfold remove_customer. store_simpl. cbn [get_value].
  rewrite get_set_same.
  assert (Hb : has_booking
                 (with_customers s
                    (set (_norm c) (Customer.Build (_norm n) (_norm p))
                         (customers s))) (_norm c) = false).
  { apply has_booking_false. store_simpl. intros Hin.
    apply in_map_iff in Hin. destruct Hin as [e [He Hd]].
    pose proof (inv_booked s H) as F. rewrite Forall_forall in F.
    destruct (F e Hd) as [Hc _]. unfold booking_customer in He.
    rewrite He in Hc. congruence. }
  rewrite Hb. unfold with_customers. store_simpl.
  rewrite del_set_absent by exact Hg. rewrite store_eta. reflexivity.
Qed.

Lemma add_then_remove_customer_witness :
  remove_customer
    (snd (add_customer idle_store (Some "C2") (Some "Bob") (Some "222")))
    (Some "C2")
  = ((true, Text "Customer removed"), idle_store).
Proof.
  apply (add_then_remove_customer idle_store (Some "C2") (Some "Bob")
           (Some "222")).
  - apply reachable_run, reach_empty.
  - reflexivity.
Defined.

Lemma set_is_occupied_back (r : Room.t) :
  Room.is_occupied r = false ->
  Room.set_is_occupied false (Room.set_is_occupied true r) = r.
Proof. destruct r. cbn. intros ->. reflexivity. Qed.

(** X9: In a store reached from the empty one, when [book_room] succeeds
    under a booking identifier that is not in use, the checkout of the
    room gives the store of before back. *)
Theorem book_then_checkout (s : HotelManagement) (c n : value) :
  reachable s ->
  fst (fst (book_room s c n)) = true ->
  get ("B" ++ str_nat (length (bookings s) + 1)) (bookings s) = None ->
  checkout (snd (book_room s c n)) (Some (_norm n))
  = ((true, Text ("Room " ++ _norm n ++ " checked out")), s).
Proof.
  intros H. apply reachable_Inv in H.
  destruct (book_room_cases s c n)
    as [[m ->]|[r (_ & Hg & Ho & _ & ->)]]; [discriminate|].
  intros _ Hfresh.
  pose proof (free_room_not_booked s _ r (inv_booked s H) Hg Ho) as Hfree.
  set (bid := "B" ++ str_nat (length (bookings s) + 1)) in *.
  set (b := Booking.Build (_norm c) (_norm n)).
  unfold checkout. store_simpl. cbn [get_value].
  rewrite get_set_same. cbn [Room.is_occupied Room.set_is_occupied negb].
  rewrite set_set.
  change (Room.Build (Room.room_type r) (Room.price r) false)
    with (Room.set_is_occupied false (Room.set_is_occupied true r)).
  rewrite (set_is_occupied_back r Ho), (set_same _ _ _ Hg).
  assert (Hd : delete_first_booking (set bid b (bookings s)) (_norm n)
                 (set bid b (bookings s)) = bookings s).
  { destruct (delete_first_booking_cases (set bid b (bookings s)) (_norm n)
                (set bid b (bookings s)))
      as [[_ Hn]|[bid' [b' (H1 & H2 & ->)]]].
    - exfalso. apply Hn. apply in_map_iff. exists (bid, b). split; auto.
      apply get_In, get_set_same.
    - apply In_set in H1. destruct H1 as [H1|[= -> ->]].
      + exfalso. apply Hfree. rewrite <- H2.
        apply (in_map booking_room _ _ H1).
      + apply del_set_absent, Hfresh. }
  rewrite Hd, store_eta. reflexivity.
Qed.

Lemma book_then_checkout_witness :
  checkout (snd (book_room idle_store (Some "C1") (Some "1005 ")))
    (Some "1005")
  = ((true, Text "Room 1005 checked out"), idle_store).
Proof.
  apply (book_then_checkout idle_store (Some "C1") (Some "1005 ")).
  - apply reachable_run, reach_empty.
  - reflexivity.
  - reflexivity.
Defined.

(** ** Success and change *)





(** X13: A room leaves the store only through [remove_room] of its number,
    and no operation changes the type or the price of a room of the
    store. *)
Theorem rooms_kept (s : HotelManagement) (rq : request) (k : string)
    (r : Room.t) :
  get k (rooms s) = Some r ->
  match get k (rooms (snd (handle s rq))) with
  | Some r' =>
      Room.room_type r' = Room.room_type r /\ Room.price r' = Room.price r
  | None => rq = RemoveRoom (Some k)
  end.
Proof.
  intros Hg.
  assert (Hflag : forall k' r' b,
             get k' (rooms s) = Some r' ->
             match get k (set k' (Room.set_is_occupied b r') (rooms s)) with
             | Some r'' =>
                 Room.room_type r'' = Room.room_type r
                 /\ Room.price r'' = Room.price r
             | None => False
             end).
  { intros k' r' b Hg'. destruct (String.eqb_spec k k') as [->|N].
    - rewrite get_set_same. rewrite Hg in Hg'. injection Hg' as ->. auto.
    - rewrite get_set_other, Hg by exact N. auto. }
  destruct rq as [a t p|a|c n p|a|c n|a]; cbn [handle].
  - destruct (add_room_cases s a t p)
      as [[m ->]|[x [n (_ & _ & _ & _ & _ & _ & Hn & _ & ->)]]];
      store_simpl; [rewrite Hg; auto|].
    rewrite get_set_other, Hg by congruence. auto.
  - destruct (remove_room_cases s a)
      as [[m ->]|[k' [r' (-> & _ & _ & ->)]]];
      store_simpl; [rewrite Hg; auto|].
    destruct (String.eqb_spec k k') as [->|N].
    + rewrite get_del_same. reflexivity.
    + rewrite get_del_other, Hg by exact N. auto.
  - destruct (add_customer_cases s c n p)
      as [[m ->]|(_ & _ & _ & _ & _ & ->)]; store_simpl; rewrite Hg; auto.
  - destruct (remove_customer_cases s a)
      as [[m ->]|[k' [c (_ & _ & _ & ->)]]]; store_simpl; rewrite Hg; auto.
  - destruct (book_room_cases s c n)
      as [[m ->]|[r' (_ & Hg' & _ & _ & ->)]];
      store_simpl; [rewrite Hg; auto|].
    specialize (Hflag _ _ true Hg'). revert Hflag.
    destruct (get k (set _ _ _)); [auto | contradiction].
  - destruct (checkout_cases s a)
      as [[m ->]|[k' [r' (_ & Hg' & _ & ->)]]];
      store_simpl; [rewrite Hg; auto|].
    specialize (Hflag _ _ false Hg'). revert Hflag.
    destruct (get k (set _ _ _)); [auto | contradiction].
Qed.

Lemma rooms_kept_witness :
  match get "1005" (rooms (snd (handle idle_store
                                  (BookRoom (Some "C1") (Some "1005"))))) with
  | Some r' => Room.room_type r' = "Deluxe" /\ Room.price r' = 150%float
  | None => BookRoom (Some "C1") (Some "1005") = RemoveRoom (Some "1005")
  end.
Proof.
  apply (rooms_kept idle_store (BookRoom (Some "C1") (Some "1005")) "1005"
           (Room.Build "Deluxe" 150%float false)).
  reflexivity.
Defined.

(** ** The queries *)

Lemma sum_ones_length {A : Type} (p : A -> bool) (l : list A) :
  sum_ones p l = Z.of_nat (length (filter p l)).
Proof.
  unfold sum_ones. induction (filter p l) as [|x f IH]; [reflexivity|].
  cbn [map fold_right length]. rewrite IH. lia.
Qed.

Lemma filter_values {V : Type} (p : V -> bool) (d : dict V) :
  filter p (values d) = values (filter (fun e => p (snd e)) d).
Proof.
  unfold values. induction d as [|[k v] d IH]; cbn [map filter snd];
    [reflexivity|].
  destruct (p v); cbn [map snd]; rewrite IH; reflexivity.
Qed.

Lemma filter_split_length {A : Type} (p : A -> bool) (l : list A) :
  length (filter p l) + length (filter (fun x => negb (p x)) l) = length l.
Proof.
  induction l as [|x l IH]; cbn [filter length]; [reflexivity|].
  destruct (p x); cbn [negb length]; lia.
Qed.

(** X14: The counts of [stats], in any store: the rooms counted available
    are those that [available_rooms] returns, and the occupied and the
    available rooms make the total. *)
Theorem stats_counts (s : HotelManagement) :
  Stats.available_rooms (stats s) = Z.of_nat (length (available_rooms s)) /\
  (Stats.occupied_rooms (stats s) + Stats.available_rooms (stats s)
   = Stats.total_rooms (stats s))%Z /\
  (0 <= Stats.occupied_rooms (stats s) <= Stats.total_rooms (stats s))%Z.
Proof.
  unfold stats, available_rooms.
  cbn [Stats.available_rooms Stats.occupied_rooms Stats.total_rooms].
  rewrite sum_ones_length, filter_values. unfold values.
  rewrite length_map.
  pose proof (filter_split_length (fun e => Room.is_occupied (snd e))
                (rooms s)) as H.
  cbv beta in H. lia.
Qed.

(** X15: The counts of [stats] in a store reached from the empty one: there
    are no more bookings than occupied rooms, no more bookings than
    customers, and no more rooms than the capacity of 20. *)
Theorem stats_reachable (s : HotelManagement) :
  reachable s ->
  (Stats.bookings (stats s) <= Stats.occupied_rooms (stats s))%Z /\
  (Stats.bookings (stats s) <= Stats.customers (stats s))%Z /\
  (Stats.total_rooms (stats s) <= Stats.max_rooms (stats s))%Z /\
  Stats.max_rooms (stats s) = 20%Z.
Proof.
  intros H. apply reachable_Inv in H.
  pose proof (inv_booked s H) as F. rewrite Forall_forall in F.
  unfold stats.
  cbn [Stats.bookings Stats.occupied_rooms Stats.customers
         Stats.total_rooms Stats.max_rooms].
  rewrite sum_ones_length, filter_values. unfold values. rewrite length_map.
  repeat split.
  - apply inj_le.
    rewrite <- (length_map booking_room (bookings s)).
    rewrite <- (length_map fst
                  (filter (fun e => Room.is_occupied (snd e)) (rooms s))).
    apply NoDup_incl_length; [apply (inv_one_per_room s H)|].
    intros k Hk. apply in_map_iff in Hk. destruct Hk as [e [<- He]].
    destruct (F e He) as [_ [r [Hr Ho]]].
    apply in_map_iff. exists (booking_room e, r). split; [reflexivity|].
    apply filter_In. split; [apply get_In, Hr | exact Ho].
  - apply inj_le.
    rewrite <- (length_map booking_customer (bookings s)).
    rewrite <- (length_map fst (customers s)).
    apply NoDup_incl_length; [apply (inv_one_per_customer s H)|].
    intros k Hk. apply in_map_iff in Hk. destruct Hk as [e [<- He]].
    destruct (F e He) as [Hc _]. apply get_keys, Hc.
  - apply inj_le, (inv_capacity s H).
Qed.

Lemma stats_reachable_witness :
  (Stats.bookings (stats collision_store)
   <= Stats.occupied_rooms (stats collision_store))%Z.
Proof.
  apply (proj1 (stats_reachable collision_store
                  (reachable_run _ _ reach_empty))).
Defined.

Lemma get_filter_absent {V : Type} (p : string * V -> bool) (k : string)
    (d : dict V) :
  ~ In k (keys d) -> get k (filter p d) = None.
Proof.
  intros N. destruct (get k (filter p d)) as [v|] eqn:E; [|reflexivity].
  exfalso. apply N. apply get_In in E. apply filter_In in E.
  apply (in_map fst _ _ (proj1 E)).
Qed.

Lemma get_filter {V : Type} (p : string * V -> bool) (k : string)
    (d : dict V) :
  NoDup (keys d) ->
  get k (filter p d)
  = match get k d with
    | Some v => if p (k, v) then Some v else None
    | None => None
    end.
Proof.
  unfold keys. induction d as [|[k0 v0] d IH]; cbn [map fst]; intros H;
    [reflexivity|].
  inversion H as [|? ? Hn Hd]; subst. cbn [filter get].
  destruct (String.eqb_spec k0 k) as [->|N].
  - destruct (p (k, v0)); cbn [get].
    + rewrite String.eqb_refl. reflexivity.
    + apply get_filter_absent, Hn.
  - destruct (p (k0, v0)); cbn [get].
    + apply String.eqb_neq in N. rewrite N. apply IH, Hd.
    + apply IH, Hd.
Qed.

(** X16: In a store whose room numbers are pairwise distinct,
    [available_rooms] holds a room under a number exactly when the store
    holds it under that number and it is not occupied. *)
Theorem available_rooms_spec (s : HotelManagement) (k : string) (r : Room.t) :
  NoDup (keys (rooms s)) ->
  get k (available_rooms s) = Some r <->
  get k (rooms s) = Some r /\ Room.is_occupied r = false.
Proof.
  intros H. unfold available_rooms. rewrite get_filter by exact H.
  cbn [snd]. destruct (get k (rooms s)) as [v|].
  - destruct (Room.is_occupied v) eqn:E; cbn [negb]; split.
    + discriminate.
    + intros [[= ->] Ho]. congruence.
    + intros [= ->]. auto.
    + intros [[= ->] _]. reflexivity.
  - split; [discriminate | intros [E _]; discriminate].
Qed.

Lemma available_rooms_spec_witness :
  get "1005" (available_rooms idle_store)
  = Some (Room.Build "Deluxe" 150%float false) <->
  get "1005" (rooms idle_store) = Some (Room.Build "Deluxe" 150%float false)
  /\ Room.is_occupied (Room.Build "Deluxe" 150%float false) = false.
Proof.
  apply (available_rooms_spec idle_store "1005").
  vm_compute. repeat constructor. intros [].
Defined.

(** ** Reading back what was written *)

Section CsvRoundTrip.
Import Csv.







End CsvRoundTrip.

Section CsvFields.
Import Csv.




(** The first character of the text is read whatever [mid] is. *)
Lemma read_text_mid (r : reader) (m1 m2 : bool) (c : ascii) (s : string) :
  read_text r m1 (String c s) = read_text r m2 (String c s).
Proof. reflexivity. Qed.










End CsvFields.

Section CsvRows.
Import Csv.





(** Carriage returns and the decoding of the line ends. *)









End CsvRows.

(** ** Saving and loading a store *)

Lemma set_absent {V : Type} (k : string) (v : V) (d : dict V) :
  get k d = None -> set k v d = (d ++ [(k, v)])%list.
Proof.
  induction d as [|[k0 v0] d IH]; cbn [get set app]; [reflexivity|].
  destruct (k0 =? k); [discriminate|]. intros H. rewrite IH; auto.
Qed.




Section RoundTrip.
Variable str_float : float -> string.
Variable float_of_str : string -> option float.



End RoundTrip.


(** ** After a checkout *)

(** X10: In a store reached from the empty one, the checkout of the room of
    a booking succeeds and deletes that booking; no booking is left for
    the room or for the customer, and both can then be removed. *)
Theorem checkout_releases (s : HotelManagement) (bid : string)
    (b : Booking.t) :
  reachable s -> In (bid, b) (bookings s) ->
  let out := checkout s (Some (Booking.room_number b)) in
  fst (fst out) = true /\
  bookings (snd out) = del bid (bookings s) /\
  (forall bid' b', In (bid', b') (bookings (snd out)) ->
                   Booking.room_number b' <> Booking.room_number b
                   /\ Booking.customer_id b' <> Booking.customer_id b) /\
  fst (fst (remove_room (snd out) (Some (Booking.room_number b)))) = true /\
  fst (fst (remove_customer (snd out) (Some (Booking.customer_id b)))) = true.
Proof.
  intros H Hin out. apply reachable_Inv in H.
  pose proof (inv_booked s H) as F. rewrite Forall_forall in F.
  destruct (F _ Hin) as [Hc [r [Hr Ho]]]. cbn [snd] in Hc, Hr.
  subst out. rewrite (checkout_occupied s _ r Hr Ho). store_simpl.
  rewrite (checkout_deletes s bid b H Hin).
  assert (Hrest : forall bid' b',
             In (bid', b') (del bid (bookings s)) ->
             Booking.room_number b' <> Booking.room_number b
             /\ Booking.customer_id b' <> Booking.customer_id b).
  { intros bid' b' Hd. apply In_del in Hd. destruct Hd as [Hd Hk].
    cbn [fst] in Hk. split; intros E; apply Hk.
    - assert (E' : (bid', b') = (bid, b)); [|congruence].
      apply (NoDup_map_inj booking_room (bookings s)); auto.
      apply (inv_one_per_room s H).
    - assert (E' : (bid', b') = (bid, b)); [|congruence].
      apply (NoDup_map_inj booking_customer (bookings s)); auto.
      apply (inv_one_per_customer s H). }
  split; [reflexivity|]. split; [reflexivity|]. split; [exact Hrest|].
  split.
  - unfold remove_room. store_simpl. cbn [get_value].
    rewrite get_set_same. reflexivity.
  - unfold remove_customer. store_simpl. cbn [get_value].
    destruct (get (Booking.customer_id b) (customers s)); [|congruence].
    match goal with
    | |- context [has_booking ?s1 ?c] =>
        assert (Hb : has_booking s1 c = false)
    end.
    { apply has_booking_false. store_simpl. intros Hi.
      apply in_map_iff in Hi. destruct Hi as [[bid' b'] [He Hd]].
      apply (proj2 (Hrest bid' b' Hd)). exact He. }
    rewrite Hb. reflexivity.
Qed.

Lemma checkout_releases_witness :
  fst (fst (remove_room (snd (checkout booked_store (Some "1005")))
              (Some "1005"))) = true.
Proof.
  refine (proj1 (proj2 (proj2 (proj2
            (checkout_releases booked_store "B1" (Booking.Build "C1" "1005")
               _ _))))).
  - apply reachable_run, reach_empty.
  - vm_compute. left. reflexivity.
Defined.

(** ** The number of bookings *)

(** X11: A successful [book_room] adds one booking when the identifier it
    builds is not in use; when it is in use the number of bookings stays
    the same, the booking that had the identifier being replaced. *)
Theorem book_room_count (s : HotelManagement) (c n : value) :
  fst (fst (book_room s c n)) = true ->
  let booking_id := "B" ++ str_nat (length (bookings s) + 1) in
  (get booking_id (bookings s) = None ->
   bookings (snd (book_room s c n))
   = (bookings s ++ [(booking_id, Booking.Build (_norm c) (_norm n))])%list) /\
  (get booking_id (bookings s) <> None ->
   length (bookings (snd (book_room s c n))) = length (bookings s) /\
   keys (bookings (snd (book_room s c n))) = keys (bookings s)).
Proof.
  destruct (book_room_cases s c n)
    as [[m ->]|[r (_ & _ & _ & _ & ->)]]; [discriminate|].
  intros _ booking_id. store_simpl. fold booking_id. split.
  - apply set_absent.
  - intros Hm. split; [apply length_set_mem, Hm|].
    unfold keys. revert Hm. generalize (bookings s) as d.
    induction d as [|[k0 v0] d IH]; cbn [get set map fst]; [congruence|].
    destruct (k0 =? booking_id) eqn:E; cbn [map fst]; [reflexivity|].
    intros Hm. rewrite IH by exact Hm. reflexivity.
Qed.

Lemma book_room_count_witness :
  bookings (snd (book_room idle_store (Some "C1") (Some "1005")))
  = [("B1", Booking.Build "C1" "1005")].
Proof.
  refine (proj1 (book_room_count idle_store (Some "C1") (Some "1005") _) _);
    reflexivity.
Defined.

(** ** Witnesses of the lemmas above *)

Lemma reachable_bookings_witness :
  exists r, get "1005" (rooms booked_store) = Some r
            /\ Room.is_occupied r = true.
Proof.
  refine (proj2 (proj2 (reachable_bookings booked_store
                          (reachable_run _ _ reach_empty)))
            ("B1", Booking.Build "C1" "1005") _).
  vm_compute. left. reflexivity.
Defined.

Lemma normalising_operations_witness :
  add_room idle_store (Some " 1007 ") (Some "Suite") (Some 200%float)
  = add_room idle_store (Some "1007") (Some "Suite ") (Some 200%float).
Proof.
  apply (proj1 (normalising_operations idle_store)); reflexivity.
Defined.

Lemma norm_spec_witness : is_space "b" = false.
Proof.
  apply (proj1 (proj2 (proj2 (norm_spec " a b ")))). reflexivity.
Defined.
